(** * arxiv_research_assistant: the text-to-record pipeline of [app.py]

    A shallow embedding of the pure functions of [src/app.py]
    ([extract_structured_content], [format_structured_response],
    [parse_paper_data], [create_papers_dataframe],
    [format_paper_display], [is_paper_list_response]) and the properties
    of the specification that are stated about them.

    Python [str] values are sequences of Unicode code points; they are
    modelled as [list N].  A [dict] with string keys is a [gmap string _]. *)

From Stdlib Require Import NArith ZArith Ascii String List Lia Bool DecimalString.
From stdpp Require Import base option list gmap strings fin_maps.

Local Open Scope N_scope.

(** ** Python strings *)

Module Py.

Abbreviation char := N (only parsing).
Abbreviation text := (list N) (only parsing).

(** A Rocq string literal read as a Python [str] (one code point per byte;
    only used for ASCII literals). *)
Definition str (s : string) : text :=
  map N_of_ascii (list_ascii_of_string s).

Definition NL : char := 10.         (* line feed *)
Definition QUOTE : char := 34.      (* double quote *)
Definition BACKSLASH : char := 92.  (* backslash *)

(** [str.isspace] of one code point, which is also the class [\s] of
    [re] on [str] patterns. *)
Definition is_space (c : char) : bool :=
  ((9 <=? c) && (c <=? 13)) || ((28 <=? c) && (c <=? 32))
  || (c =? 133) || (c =? 160) || (c =? 5760)
  || ((8192 <=? c) && (c <=? 8202))
  || (c =? 8232) || (c =? 8233) || (c =? 8239) || (c =? 8287)
  || (c =? 12288).

(** Truth value of a [str]: non-empty. *)
Definition truthy (s : text) : bool :=
  match s with [] => false | _ :: _ => true end.

(** [s.lstrip(chars)] and [s.rstrip(chars)], the set given as a predicate. *)
Fixpoint lstrip_by (p : char -> bool) (s : text) : text :=
  match s with
  | c :: s' => if p c then lstrip_by p s' else s
  | [] => []
  end.

Definition rstrip_by (p : char -> bool) (s : text) : text :=
  rev (lstrip_by p (rev s)).

Definition strip_by (p : char -> bool) (s : text) : text :=
  rstrip_by p (lstrip_by p s).

(** [s.strip()] *)
Definition strip (s : text) : text := strip_by is_space s.

(** [s.lstrip(c)] and [s.strip(c)] for a one-character set. *)
Definition lstrip_chr (c : char) (s : text) : text := lstrip_by (N.eqb c) s.
Definition strip_chr (c : char) (s : text) : text := strip_by (N.eqb c) s.

(** [s.startswith(p)] *)
Fixpoint startswith (p s : text) : bool :=
  match p, s with
  | [], _ => true
  | a :: p', b :: s' => (a =? b) && startswith p' s'
  | _ :: _, [] => false
  end.

(** [s.endswith(p)] *)
Definition endswith (p s : text) : bool := startswith (rev p) (rev s).

(** [p in s] *)
Fixpoint contains (p s : text) : bool :=
  startswith p s ||
  match s with
  | [] => false
  | _ :: s' => contains p s'
  end.

(** [s.index(p)], [None] for the [ValueError] of a missing substring. *)
Fixpoint index (p s : text) : option nat :=
  if startswith p s then Some 0%nat
  else match s with
       | [] => None
       | _ :: s' => S <$> index p s'
       end.

(** [s.split(sep)] for a one-character separator: never the empty list. *)
Fixpoint split (sep : char) (s : text) : list text :=
  match s with
  | [] => [[]]
  | c :: s' =>
      if c =? sep then [] :: split sep s'
      else match split sep s' with
           | l :: ls => (c :: l) :: ls
           | [] => [[c]]
           end
  end.

(** [sep.join(ls)] *)
Fixpoint join (sep : text) (ls : list text) : text :=
  match ls with
  | [] => []
  | [l] => l
  | l :: ls' => l ++ sep ++ join sep ls'
  end.

(** [s.replace(old, new)] for a two-character [old]: left to right,
    non-overlapping. *)
Fixpoint replace2 (o1 o2 : char) (new : text) (s : text) : text :=
  match s with
  | a :: s' =>
      match s' with
      | b :: s'' =>
          if (a =? o1) && (b =? o2) then new ++ replace2 o1 o2 new s''
          else a :: replace2 o1 o2 new s'
      | [] => [a]
      end
  | [] => []
  end.

End Py.

(** ** The fragment of Python's [re] used by [app.py]

    A backtracking matcher in continuation-passing style, with the
    priorities of [re]: a greedy quantifier tries the longest repetition
    first, a lazy one the shortest, an alternation its left branch first.
    Every quantifier of the source applies to a single character or
    character class, so [Rep] repeats an [atom]. *)

Module Re.
Import Py.

Inductive atom :=
| Lit (c : char)            (* a literal character; folded under IGNORECASE *)
| Cls (p : char -> bool).   (* a class: \d \s \w . [...] *)

Inductive regex :=
| Eps
| Atom (a : atom)
| Rep (a : atom) (lo : nat) (hi : option nat) (greedy : bool)
| Cat (r1 r2 : regex)
| Alt (r1 r2 : regex)
| Grp (i : nat) (r : regex)
| Bol                       (* ^ *)
| Eol.                      (* $ *)

Definition ascii_lower (c : char) : char :=
  if (65 <=? c) && (c <=? 90) then c + 32 else c.

Definition ascii_upper (c : char) : char :=
  if (97 <=? c) && (c <=? 122) then c - 32 else c.

(** IGNORECASE comparison of an ASCII pattern character [c] with a subject
    character [ch]: besides the two ASCII cases, [i] also matches U+0130
    and U+0131, [s] matches U+017F and [k] matches U+212A. *)
Definition ci_eq (c ch : char) : bool :=
  (ch =? ascii_lower c) || (ch =? ascii_upper c)
  || ((ascii_lower c =? 105) && ((ch =? 304) || (ch =? 305)))
  || ((ascii_lower c =? 115) && (ch =? 383))
  || ((ascii_lower c =? 107) && (ch =? 8490)).

Definition atom_ok (icase : bool) (a : atom) (ch : char) : bool :=
  match a with
  | Lit c => if icase then ci_eq c ch else c =? ch
  | Cls p => p ch
  end.

(** The groups of a match object. *)
Abbreviation captures := (gmap nat (list N)) (only parsing).

Section Matcher.
Variable icase : bool.
Context {A : Type}.

Definition stop (lo : nat) (pos : nat) (s : text)
    (k : nat -> text -> option A) : option A :=
  match lo with O => k pos s | S _ => None end.

(** [a{lo,hi}], greedy or lazy, then the continuation [k]. *)
Fixpoint rep (a : atom) (greedy : bool) (lo : nat) (hi : option nat)
    (pos : nat) (s : text) (k : nat -> text -> option A) : option A :=
  match hi with
  | Some O => stop lo pos s k
  | _ =>
      match s with
      | c :: s' =>
          if atom_ok icase a c then
            if greedy then
              match rep a greedy (pred lo) (pred <$> hi) (S pos) s' k with
              | Some m => Some m
              | None => stop lo pos s k
              end
            else
              match stop lo pos s k with
              | Some m => Some m
              | None => rep a greedy (pred lo) (pred <$> hi) (S pos) s' k
              end
          else stop lo pos s k
      | [] => stop lo pos s k
      end
  end.
End Matcher.

Fixpoint rmatch (icase : bool) (r : regex) (pos : nat) (s : text)
    (cs : captures) (k : nat -> text -> captures -> option captures)
    : option captures :=
  match r with
  | Eps => k pos s cs
  | Atom a =>
      match s with
      | c :: s' => if atom_ok icase a c then k (S pos) s' cs else None
      | [] => None
      end
  | Rep a lo hi greedy =>
      rep icase a greedy lo hi pos s (fun pos' s' => k pos' s' cs)
  | Cat r1 r2 =>
      rmatch icase r1 pos s cs (fun pos' s' cs' => rmatch icase r2 pos' s' cs' k)
  | Alt r1 r2 =>
      match rmatch icase r1 pos s cs k with
      | Some m => Some m
      | None => rmatch icase r2 pos s cs k
      end
  | Grp i r1 =>
      rmatch icase r1 pos s cs
        (fun pos' s' cs' => k pos' s' (<[i := take (pos' - pos) s]> cs'))
  | Bol => match pos with O => k pos s cs | S _ => None end
  | Eol =>
      match s with
      | [] => k pos s cs
      | [c] => if c =? NL then k pos s cs else None
      | _ => None
      end
  end.

(** A compiled pattern: the IGNORECASE flag and the expression. *)
Record pattern := Pattern { p_icase : bool; p_re : regex }.

(** [pat.match(s)]: a match at position 0. *)
Definition re_match (p : pattern) (s : text) : option captures :=
  rmatch (p_icase p) (p_re p) 0 s ∅ (fun _ _ cs => Some cs).

(** [re.search]: the leftmost start position that matches. *)
Fixpoint search_from (p : pattern) (pos : nat) (s : text) : option captures :=
  match rmatch (p_icase p) (p_re p) pos s ∅ (fun _ _ cs => Some cs) with
  | Some m => Some m
  | None =>
      match s with
      | [] => None
      | _ :: s' => search_from p (S pos) s'
      end
  end.

Definition re_search (p : pattern) (s : text) : option captures :=
  search_from p 0 s.

(** [m.group(i)]; [None] when the group took no part in the match. *)
Definition group (m : captures) (i : nat) : option text := m !! i.

(** [n] repetitions respect the upper bound [hi]. *)
Definition within (hi : option nat) (n : nat) : Prop :=
  match hi with Some h => (n <= h)%nat | None => True end.

(** Every group of a match object is made of characters of [L]. *)
Definition caps_in (L : list N) (cs : captures) : Prop :=
  map_Forall (fun _ v => v ⊆ L) cs.

Definition is_Some_bool {A} (o : option A) : bool :=
  match o with Some _ => true | None => false end.

(** Pattern syntax. *)
Definition seq (rs : list regex) : regex := foldr Cat Eps rs.
Definition lit (s : string) : regex := seq (map (fun c => Atom (Lit c)) (str s)).
Definition chr (a : ascii) : atom := Lit (N_of_ascii a).
Definition star (a : atom) : regex := Rep a 0 None true.
Definition star_lazy (a : atom) : regex := Rep a 0 None false.
Definition plus (a : atom) : regex := Rep a 1 None true.
Definition opt (a : atom) : regex := Rep a 0 (Some 1%nat) true.
Definition times (lo hi : nat) (a : atom) : regex := Rep a lo (Some hi) true.

(** [.] without DOTALL: anything but a line feed. *)
Definition dot : atom := Cls (fun c => negb (c =? NL)).
(** [\s] *)
Definition space : atom := Cls is_space.

End Re.

(** ** [app.py] *)

Module App.
Import Py Re.

Local Open Scope string_scope.
Local Open Scope list_scope.
Local Open Scope N_scope.

(** A paper is a [dict] from field names to strings. *)
Abbreviation paper := (gmap string (list N)) (only parsing).

(** Truth value of a [dict]: non-empty. *)
Definition dict_truthy (d : paper) : bool := negb (bool_decide (d = ∅)).

(** *** The text cleaner: [extract_structured_content], lines 33 to 39,
    and [format_structured_response] *)

(** The stray bullet glyph of the source: U+00E2 U+20AC U+00A2. *)
Definition GLYPH : text := [226; 8364; 162]%N.

Definition markers : list text :=
  [str "**"; str "*"; GLYPH; str "- "; str "Key findings:"; str "Abstract:";
   str "Summary:"].

(** The body of the loop of [format_structured_response] for one line:
    what is appended to [formatted_lines]. *)
Definition format_line (line : text) : text :=
  let line := strip line in
  if negb (truthy line) then []
  else if startswith (str "**") line && endswith (str "**") line then
    str "### " ++ line
  else if startswith (str "*") line && negb (startswith (str "**") line) then
    str "- " ++ strip (drop 1 line)
  else if startswith GLYPH line then
    str "- " ++ strip (drop 1 line)
  else line.

(** The loop itself, appending to the accumulator [formatted_lines]. *)
Fixpoint format_loop (lines : list text) (formatted_lines : list text)
    : list text :=
  match lines with
  | [] => formatted_lines
  | line :: rest => format_loop rest (formatted_lines ++ [format_line line])
  end.

Definition format_structured_response (t : text) : text :=
  if contains (str "**") t && (contains (str "*") t || contains GLYPH t) then
    join [NL] (format_loop (split NL t) [])
  else t.

(** The two [replace] calls on [text_response]: a backslash followed by
    [n] becomes a line feed, then a backslash followed by a double quote
    becomes a double quote. *)
Definition unescape (t : text) : text :=
  replace2 BACKSLASH QUOTE [QUOTE]
    (replace2 BACKSLASH 110 [NL] t).

(** [clean]: what [extract_structured_content] does to the text it found
    in the response (lines 33 to 39).  The lookup of that text in the
    nested response, and the fallback for a missing or empty text, are
    outside the cleaner. *)
Definition clean (text_response : text) : text :=
  let text_response := unescape text_response in
  if existsb (fun marker => contains marker text_response) markers then
    format_structured_response text_response
  else text_response.

(** The canonical markdown form in the specification's words: every line
    is blank, already bulleted ([- ...]) or already headed ([### ...]). *)
Definition already_formatted_line (l : list N) : bool :=
  negb (truthy l) || startswith (str "- ") l || startswith (str "### ") l.

Definition canonical (x : list N) : bool :=
  forallb already_formatted_line (split NL x).

(** A text that still holds an escape sequence of the replacement: a
    backslash followed by [n], or a backslash followed by a double
    quote. *)
Definition has_escape (t : text) : bool :=
  contains [BACKSLASH; 110] t || contains [BACKSLASH; QUOTE] t.

(** *** The presenters that the properties mention *)

(** A row of the table built by [create_papers_dataframe]. *)
Record row := Row { Title : list N; URL : list N }.

(** [t.lower() == lit] for a lower-case ASCII literal [lit]: no code
    point outside ASCII lowers to an ASCII letter of the literals used
    here, so the comparison is per character. *)
Fixpoint lower_equals (lit t : text) : bool :=
  match lit, t with
  | [], [] => true
  | c :: lit', ch :: t' => ((ch =? c) || (ch =? ascii_upper c)) && lower_equals lit' t'
  | _, _ => false
  end.

(** The loop body of [create_papers_dataframe]. *)
Definition row_of_paper (p : paper) : row :=
  let title := default (str "Unknown") (p !! "title") in
  let title :=
    if startswith (str "[") title && contains (str "](") title
       && endswith (str ")") title
    then match index (str "](") title with
         | Some i => drop 1 (take i title)       (* title[1:i] *)
         | None => title
         end
    else title in
  let title :=
    if lower_equals (str "title") (strip title) then str "Unknown Title"
    else title in
  Row title (default (str "N/A") (p !! "url")).

(** [None] is the [None] returned for an empty list; the data frame is
    the list of its rows. *)
Definition create_papers_dataframe (papers : list paper) : option (list row) :=
  match papers with
  | [] => None
  | _ => Some (map row_of_paper papers)
  end.

(** [str(n)] of an integer. *)
Definition str_of_Z (n : Z) : text :=
  str (NilZero.string_of_int (Z.to_int n)).

(** [papers[:n]] *)
Definition slice_to {A} (n : Z) (l : list A) : list A :=
  if (n <? 0)%Z then take (length l - Z.to_nat (- n)) l
  else take (Z.to_nat n) l.

(** [paper.get(key)] as a condition. *)
Definition get_truthy (p : paper) (key : string) : bool :=
  match p !! key with
  | Some v => truthy v
  | None => false
  end.

(** The three conditional sections of one paper in
    [format_paper_display]. *)
Definition categories_section (p : paper) : text :=
  if get_truthy p "categories" then
    str "**Categories:** `" ++ default [] (p !! "categories") ++ str "`" ++ [NL; NL]
  else [].

Definition link_section (p : paper) : text :=
  if get_truthy p "url" then
    str "**Link:** [" ++ default [] (p !! "url") ++ str "]("
      ++ default [] (p !! "url") ++ str ")" ++ [NL; NL]
  else [].

Definition summary_section (p : paper) : text :=
  if get_truthy p "summary" then
    str "**Summary:** " ++ default [] (p !! "summary") ++ [NL; NL]
  else [].

(** The body of the [enumerate] loop for paper [p] at index [i]. *)
Definition display_paper (i : nat) (p : paper) : text :=
  str "### " ++ str_of_Z (Z.of_nat i + 1) ++ str ". "
    ++ default (str "Unknown Title") (p !! "title") ++ [NL]
    ++ categories_section p ++ link_section p ++ summary_section p
    ++ str "---" ++ [NL; NL].

Definition format_paper_display (papers : list paper) (max_papers : Z) : text :=
  match papers with
  | [] => str "No papers found in the expected format."
  | _ =>
      (* the heading glyph of the source: U+011F U+0178 U+201C U+201E *)
      str "## " ++ [287; 376; 8220; 8222] ++ str " Found "
        ++ str_of_Z (Z.min (Z.of_nat (length papers)) max_papers)
        ++ str " Recent Papers" ++ [NL; NL]
        ++ concat (imap display_paper (slice_to max_papers papers))
  end.

(** *** [format_structured_paper_list] *)

(** [.strip(':').strip('*').strip()] of a field of the report. *)
Definition report_value (v : text) : text :=
  strip (strip_chr 42 (strip_chr 58 v)).

(** A labelled field followed by a blank line, or nothing when the value
    is empty. *)
Definition report_field (label : string) (v : text) : list text :=
  if truthy v then [str label ++ v; []] else [].

(** What one iteration of the loop appends to [output]. *)
Definition report_paper (p : paper) : list text :=
  let title_val := report_value (default (str "Unknown Title") (p !! "title")) in
  let authors_val := report_value (default [] (p !! "authors")) in
  let published_val := report_value (default [] (p !! "published")) in
  let summary_val := report_value (default [] (p !! "summary")) in
  let url_val := strip (default [] (p !! "url")) in
  [str "**Title:** " ++ title_val; []]
    ++ report_field "**Authors:** " authors_val
    ++ report_field "**Published:** " published_val
    ++ report_field "**Summary:** " summary_val
    ++ report_field "**PDF Link:** " url_val
    ++ [str "---"].

Definition format_structured_paper_list (papers : list paper) : text :=
  match papers with
  | [] => str "No papers found in the expected format."
  | _ =>
      let output := fold_left (fun output p => output ++ report_paper p) papers [] in
      join [NL] output
  end.

(** *** [extract_structured_content] on the decoded response

    The response is a decoded JSON document.  A float is kept only as far
    as the function can observe it: whether it is zero. *)

#[local] Set Warnings "-register-all".

Inductive json :=
| JNull
| JBool (b : bool)
| JInt (n : Z)
| JFloat (nonzero : bool)
| JStr (s : list N)
| JList (l : list json)
| JDict (d : list (list N * json)).

(** The exceptions the navigation can raise. *)
Inductive exn := KeyError | IndexError | TypeError | AttributeError.

Inductive result (A : Type) :=
| Ok (a : A)
| Raise (e : exn).
Arguments Ok {A} a.
Arguments Raise {A} e.

(** Sequencing: an exception ends the evaluation. *)
Definition bind {A B} (r : result A) (f : A -> result B) : result B :=
  match r with
  | Ok a => f a
  | Raise e => Raise e
  end.

Notation "'let!' x := r 'in' k" := (bind r (fun x => k))
  (at level 10, x name, r at level 100, k at level 200).

(** [d[key]] and [d.get(key)] on the entries of a dict. *)
Fixpoint dict_lookup (key : list N) (d : list (list N * json)) : option json :=
  match d with
  | [] => None
  | (k, v) :: d' => if bool_decide (k = key) then Some v else dict_lookup key d'
  end.

(** The truth value of a JSON value. *)
Definition json_truthy (x : json) : bool :=
  match x with
  | JNull => false
  | JBool b => b
  | JInt n => negb (n =? 0)%Z
  | JFloat nonzero => nonzero
  | JStr s => truthy s
  | JList l => match l with [] => false | _ => true end
  | JDict d => match d with [] => false | _ => true end
  end.

(** [key in x] for a string [key]: a key of a dict, an element of a list,
    a substring of a string; a [TypeError] on anything else. *)
Definition py_in (key : list N) (x : json) : result bool :=
  match x with
  | JDict d => Ok (is_Some_bool (dict_lookup key d))
  | JList l =>
      Ok (existsb (fun v => match v with
                            | JStr s => bool_decide (s = key)
                            | _ => false
                            end) l)
  | JStr s => Ok (contains key s)
  | _ => Raise TypeError
  end.

(** [x[key]] for a string [key]. *)
Definition py_getitem (x : json) (key : list N) : result json :=
  match x with
  | JDict d =>
      match dict_lookup key d with
      | Some v => Ok v
      | None => Raise KeyError
      end
  | _ => Raise TypeError
  end.

(** [x[0]]: a dict decoded from JSON has string keys only, so the key 0
    is never found. *)
Definition py_first (x : json) : result json :=
  match x with
  | JList l => match l with v :: _ => Ok v | [] => Raise IndexError end
  | JStr s => match s with c :: _ => Ok (JStr [c]) | [] => Raise IndexError end
  | JDict _ => Raise KeyError
  | _ => Raise TypeError
  end.

(** [x.get(key, default)]: only a dict has the method. *)
Definition py_get (x : json) (key : list N) (default : json) : result json :=
  match x with
  | JDict d =>
      match dict_lookup key d with
      | Some v => Ok v
      | None => Ok default
      end
  | _ => Raise AttributeError
  end.

(** What the function hands back.  The two strings that the runtime
    renders are kept symbolic: [Fallback] is [str(response_data)] and
    [ParseError e] is the message built from the caught exception [e]. *)
Inductive extracted :=
| Text (t : list N)
| Fallback
| ParseError (e : exn)
| Uncaught (e : exn).

(** The body of the [try] block: [Ok None] when control reaches the
    fallback [return] after it. *)
Definition extract_body (response_data : json) : result (option (list N)) :=
  let! has_outputs := py_in (str "outputs") response_data in
  let! outputs_truthy :=
    (if has_outputs then
       let! outputs := py_getitem response_data (str "outputs") in
       Ok (json_truthy outputs)
     else Ok false) in
  if outputs_truthy then
    let! outputs := py_getitem response_data (str "outputs") in
    let! first_output := py_first outputs in
    let! first_output_list := py_get first_output (str "outputs") (JList []) in
    if json_truthy first_output_list then
      let! first_item := py_first first_output_list in
      let! first_result := py_get first_item (str "results") (JDict []) in
      let! message := py_get first_result (str "message") (JDict []) in
      let! text_response := py_get message (str "text") JNull in
      let! has_data :=
        (if negb (json_truthy text_response) then py_in (str "data") message
         else Ok false) in
      let! text_response :=
        (if has_data then
           let! data := py_getitem message (str "data") in
           py_get data (str "text") (JStr [])
         else Ok text_response) in
      if json_truthy text_response then
        match text_response with
        | JStr t => Ok (Some (clean t))
        | _ => Raise AttributeError      (* no [replace] method *)
        end
      else Ok None
    else Ok None
  else Ok None.

Definition extract_structured_content (response_data : json) : extracted :=
  match extract_body response_data with
  | Ok (Some t) => Text t
  | Ok None => Fallback
  | Raise AttributeError => Uncaught AttributeError
  | Raise e => ParseError e
  end.

(** The number of divider lines of a report. *)
Definition dividers (report : text) : nat :=
  length (filter (fun l => l = str "---") (split NL report)).

(** A record whose values hold no line feed. *)
Definition single_line_record (r : paper) : Prop :=
  map_Forall (fun _ v => NL ∉ v) r.

(** *** The record parser and its consumers.

    The Unicode database of the Python runtime is a parameter beyond
    ASCII: [uni_decimal] is the category Nd (the class [\d]) and
    [uni_alnum] the alphanumeric code points (the class [\w]) above
    U+007F. *)

Section Parser.

Variable uni_decimal : N -> bool.
Variable uni_alnum : N -> bool.

Definition is_decimal (c : N) : bool :=
  if c <? 128 then (48 <=? c) && (c <=? 57) else uni_decimal c.

Definition is_word (c : N) : bool :=
  if c <? 128 then
    ((48 <=? c) && (c <=? 57)) || ((65 <=? c) && (c <=? 90))
    || ((97 <=? c) && (c <=? 122)) || (c =? 95)
  else uni_alnum c.

Definition digit : atom := Cls is_decimal.

(** [title_patterns], in the order of the source. *)
Definition title_patterns : list pattern :=
  [ (* ^\d+\.\s*\*\*Title\*\*:?\s*( .* ) with IGNORECASE *)
    Pattern true
      (seq [Bol; plus digit; lit "."; star space; lit "**Title**";
            opt (chr ":"); star space; Grp 1 (star dot)]);
    (* ^\d+\.\s*\*\*(.*?)\*\* *)
    Pattern false
      (seq [Bol; plus digit; lit "."; star space; lit "**";
            Grp 1 (star_lazy dot); lit "**"]);
    (* ^\d+\.\s*__(.*?)__ *)
    Pattern false
      (seq [Bol; plus digit; lit "."; star space; lit "__";
            Grp 1 (star_lazy dot); lit "__"]);
    (* ^\d+\.\s*\*(.*?)\* *)
    Pattern false
      (seq [Bol; plus digit; lit "."; star space; lit "*";
            Grp 1 (star_lazy dot); lit "*"]);
    (* ^\d+\.\s*(.*?)$ *)
    Pattern false
      (seq [Bol; plus digit; lit "."; star space; Grp 1 (star_lazy dot); Eol]);
    (* ^Title:?[ \t]*(.+) with IGNORECASE *)
    Pattern true
      (seq [Bol; lit "Title"; opt (chr ":");
            star (Cls (fun c => (c =? 32) || (c =? 9))); Grp 1 (plus dot)]) ].

(** \[(.*?)\]\([^\)]+\) *)
Definition link_re : pattern :=
  Pattern false
    (seq [lit "["; Grp 1 (star_lazy dot); lit "]"; lit "(";
          plus (Cls (fun c => negb (c =? 41))); lit ")"]).

(** Authors?:?\s*( .* ) with IGNORECASE *)
Definition authors_re : pattern :=
  Pattern true
    (seq [lit "Author"; opt (chr "s"); opt (chr ":"); star space;
          Grp 1 (star dot)]).

(** Published:?\s*([A-Za-z]+ \d{1,2}, \d{4}) *)
Definition published_re : pattern :=
  Pattern false
    (seq [lit "Published"; opt (chr ":"); star space;
          Grp 1 (seq [plus (Cls (fun c => ((65 <=? c) && (c <=? 90))
                                          || ((97 <=? c) && (c <=? 122))));
                      lit " "; times 1 2 digit; lit ", "; times 4 4 digit])]).

(** (Summary|Abstract):?\s*( .* ) with IGNORECASE *)
Definition summary_re : pattern :=
  Pattern true
    (seq [Grp 1 (Alt (lit "Summary") (lit "Abstract")); opt (chr ":");
          star space; Grp 2 (star dot)]).

(** (https?://arxiv\.org/[\w\-/\.]+) *)
Definition url_re : pattern :=
  Pattern false
    (Grp 1 (seq [lit "http"; opt (chr "s"); lit "://arxiv.org/";
                 plus (Cls (fun c => is_word c || (c =? 45) || (c =? 47)
                                     || (c =? 46)))])).

(** ^\d+\.  followed by one space *)
Definition numbered_re : pattern :=
  Pattern false (seq [Bol; plus digit; lit ". "]).

(** The text of a group that takes part in every match of its pattern. *)
Definition group_text (m : captures) (i : nat) : text :=
  default [] (group m i).

Definition extract_markdown_link_text (s : text) : text :=
  match re_match link_re s with
  | Some m => strip (group_text m 1)
  | None => strip s
  end.

(** The [for pat in title_patterns] loop up to its [break]: the first
    pattern that matches, with its match object. *)
Fixpoint first_title_match (pats : list pattern) (line : text)
    : option captures :=
  match pats with
  | [] => None
  | pat :: rest =>
      match re_match pat line with
      | Some m => Some m
      | None => first_title_match rest line
      end
  end.

(** [.strip().lstrip(':').lstrip('*').strip()] of a captured field. *)
Definition field_value (g : text) : text :=
  strip (lstrip_chr 42 (lstrip_chr 58 (strip g))).

Definition new_paper (title_val : text) : paper :=
  {[ "title" := (if truthy title_val then title_val else str "Unknown Title");
     "categories" := [];
     "url" := [];
     "summary" := [];
     "authors" := [];
     "published" := [] ]}.

(** The names of the fields that a non-title line may assign. *)
Definition assigned_field (k : string) : Prop :=
  k = "authors" \/ k = "published" \/ k = "summary" \/ k = "url".

(** The categories of a record are never a non-empty string, and its
    title, when it has one, is not empty. *)
Definition record_ok (r : gmap string (list N)) : Prop :=
  (r !! "categories" = None \/ r !! "categories" = Some [])
  /\ (r !! "title" = None \/ exists t, r !! "title" = Some t /\ t <> []).

(** The loop state: [papers] and [current_paper].  [current_paper] is
    bound to a dict throughout (the empty dict at first), so the test
    [current_paper is not None] of the field branches always holds. *)
Definition state : Type := list paper * paper.

Definition is_not_None (d : paper) : bool := true.

(** One iteration of the [for line in lines] loop. *)
Definition parse_line (st : state) (line : text) : state :=
  let '(papers, current_paper) := st in
  let line := strip line in
  if negb (truthy line) then st
  else
    match first_title_match title_patterns line with
    | Some m =>
        let papers :=
          if dict_truthy current_paper then papers ++ [current_paper]
          else papers in
        let title_val :=
          match group m 1 with
          | Some g => if truthy g then strip g else []
          | None => []
          end in
        let title_val := extract_markdown_link_text title_val in
        (papers, new_paper title_val)
    | None =>
        match re_search authors_re line with
        | Some m =>
            if is_not_None current_paper then
              (papers, <["authors" := field_value (group_text m 1)]> current_paper)
            else st
        | None =>
        match re_search published_re line with
        | Some m =>
            if is_not_None current_paper then
              (papers, <["published" := field_value (group_text m 1)]> current_paper)
            else st
        | None =>
        match re_search summary_re line with
        | Some m =>
            if is_not_None current_paper then
              (papers, <["summary" := field_value (group_text m 2)]> current_paper)
            else st
        | None =>
        match re_search url_re line with
        | Some m =>
            if is_not_None current_paper then
              (papers, <["url" := group_text m 1]> current_paper)
            else st
        | None => st
        end end end end
    end.

Definition parse_paper_data (text_response : text) : list paper :=
  let lines := split NL text_response in
  let '(papers, current_paper) := fold_left parse_line lines ([], ∅) in
  if dict_truthy current_paper then papers ++ [current_paper] else papers.

(** A line on which the title loop finds a match: it is not blank once
    trimmed and one of the six patterns matches it. *)
Definition is_title_line (line : text) : bool :=
  truthy (strip line)
  && bool_decide (is_Some (first_title_match title_patterns (strip line))).

(** The number of lines of a text that match a title pattern. *)
Definition title_line_count (text_response : text) : nat :=
  length (filter (fun line => is_title_line line = true)
            (split NL text_response)).

(** A record is open when [current_paper] is truthy: that is the test the
    parser makes before it saves the record. *)
Definition record_open (st : state) : bool := dict_truthy (snd st).

(** The records a state holds: those saved and the open one. *)
Definition records_of (st : state) : list paper :=
  if record_open st then fst st ++ [snd st] else fst st.

(** The six keys of a record that a title line opens. *)
Definition field_names : list string :=
  ["title"; "categories"; "url"; "summary"; "authors"; "published"].

Definition complete_record (r : paper) : Prop :=
  Forall (fun k => is_Some (r !! k)) field_names.

(** The field and value that the field branches of the loop assign for a
    trimmed line that is no title line, in the order of the source. *)
Definition line_field (line : text) : option (string * text) :=
  match re_search authors_re line with
  | Some m => Some ("authors", field_value (group_text m 1))
  | None =>
  match re_search published_re line with
  | Some m => Some ("published", field_value (group_text m 1))
  | None =>
  match re_search summary_re line with
  | Some m => Some ("summary", field_value (group_text m 2))
  | None =>
  match re_search url_re line with
  | Some m => Some ("url", group_text m 1)
  | None => None
  end end end end.

(** The invariant of the loop: no record is saved before one is open,
    and every record after the first has its six keys. *)
Definition tail_complete (st : state) : Prop :=
  (record_open st = false -> fst st = [])
  /\ Forall complete_record (tl (records_of st)).

(** The raw lines that [re.match(r'^\d+\. ', line)] accepts. *)
Definition is_numbered (line : text) : bool :=
  bool_decide (is_Some (re_match numbered_re line)).

Definition is_paper_list_response (response_text : text) : bool :=
  let papers := parse_paper_data response_text in
  if (2 <=? length papers)%nat then true
  else
    let lines := split NL (strip response_text) in
    let numbered_lines := filter (fun line => is_numbered line = true) lines in
    (2 <=? length numbered_lines)%nat.


(** What the page shows for one assistant message of the chat history
    (lines 350 to 362): the calls to [st.markdown] and [st.dataframe], in
    order. *)
Inductive widget :=
| Markdown (t : list N)
| Dataframe (df : list row).

Definition show_assistant_message (content : text) : list widget :=
  if is_paper_list_response content then
    let papers := parse_paper_data content in
    match papers with
    | _ :: _ =>
        Markdown (format_structured_paper_list papers)
          :: match create_papers_dataframe papers with
             | Some df => [Dataframe df]
             | None => []
             end
    | [] => [Markdown content]
    end
  else [Markdown content].

End Parser.
End App.

(** ** The inputs of the scenarios *)

Module Scenarios.
Import Py.
Local Open Scope string_scope.
Local Open Scope list_scope.

(** Scenario A of the specification: two numbered papers with labelled
    fields. *)
Definition scenario_A : list N :=
  str "1. **Title**: Deep Learning Basics" ++ NL ::
  str "Authors: J. Doe" ++ NL ::
  str "Published: March 3, 2024" ++ NL ::
  str "Summary: An overview." ++ NL ::
  str "https://arxiv.org/abs/1234.5678" ++ NL ::
  str "2. **Title**: Transformers Explained" ++ NL ::
  str "Authors: A. Smith".

(** Scenario C: a numbered line holding a markdown link. *)
Definition scenario_C : list N :=
  str "1. [Attention Is All You Need](https://arxiv.org/abs/1706.03762)".

(** Scenario D: three bare numbered lines. *)
Definition scenario_D : list N :=
  str "1. Paper A" ++ NL :: str "2. Paper B" ++ NL :: str "3. Paper C".

(** A field line that no title line precedes. *)
Definition authors_first : list N := str "Authors: J. Doe".

(** The same line followed by one numbered title. *)
Definition authors_then_title : list N :=
  str "Authors: J. Doe" ++ NL :: str "1. Paper A".

(** One numbered title and nothing else. *)
Definition lone_title : list N := str "1. Paper A".

(** The smallest response of the expected shape around a message. *)
Definition response_with (message : list (list N * App.json)) : App.json :=
  App.JDict
    [(str "outputs",
      App.JList
        [App.JDict
           [(str "outputs",
             App.JList
               [App.JDict
                  [(str "results",
                    App.JDict [(str "message", App.JDict message)])]])]])].

End Scenarios.

(** * Properties *)

(** ** Facts about the string operations *)

Module TextFacts.
Import Py.

Lemma split_nonempty sep s : split sep s <> [].
Proof.
  destruct s as [|c s]; simpl; [discriminate|].
  destruct (c =? sep); [discriminate|].
  destruct (split sep s); discriminate.
Qed.

(** No line of [s.split(sep)] contains the separator. *)
Lemma split_no_sep sep s : Forall (fun l => sep ∉ l) (split sep s).
Proof.
  induction s as [|c s IH]; simpl.
  - constructor; [apply not_elem_of_nil | constructor].
  - destruct (N.eqb_spec c sep) as [->|Hne].
    + constructor; [apply not_elem_of_nil | exact IH].
    + destruct (split sep s) as [|l ls]; inversion IH; subst.
      * constructor; [|constructor]. rewrite elem_of_cons, elem_of_nil. intuition.
      * constructor; [|assumption]. rewrite elem_of_cons. intuition.
Qed.

Lemma split_sep_free sep s : sep ∉ s -> split sep s = [s].
Proof.
  induction s as [|c s IH]; simpl; intros Hs; [reflexivity|].
  rewrite elem_of_cons in Hs.
  destruct (N.eqb_spec c sep) as [->|Hne]; [intuition|].
  rewrite IH by intuition. reflexivity.
Qed.

Lemma split_app_sep sep l s :
  sep ∉ l -> split sep (l ++ sep :: s) = l :: split sep s.
Proof.
  induction l as [|c l IH]; simpl; intros Hl.
  - rewrite N.eqb_refl. reflexivity.
  - rewrite elem_of_cons in Hl.
    destruct (N.eqb_spec c sep) as [->|Hne]; [intuition|].
    rewrite IH by intuition. reflexivity.
Qed.

(** Splitting what was joined gives the lines back. *)
Lemma split_join sep ls :
  ls <> [] -> Forall (fun l => sep ∉ l) ls ->
  split sep (join [sep] ls) = ls.
Proof.
  induction ls as [|l ls IH]; [congruence|].
  intros _ Hall. inversion Hall as [|? ? Hl Hls]; subst.
  destruct ls as [|l' ls'].
  - simpl. apply split_sep_free, Hl.
  - change (join [sep] (l :: l' :: ls')) with (l ++ sep :: join [sep] (l' :: ls')).
    rewrite split_app_sep by exact Hl.
    rewrite IH; [reflexivity | discriminate | exact Hls].
Qed.

Lemma elem_of_join c sep ls :
  c ∈ join sep ls -> c ∈ sep \/ exists l, l ∈ ls /\ c ∈ l.
Proof.
  induction ls as [|l ls IH]; simpl.
  - intros H. apply elem_of_nil in H. contradiction.
  - destruct ls as [|l' ls'].
    + intros H. right. exists l. split; [apply list_elem_of_here | exact H].
    + rewrite !elem_of_app. intros [H | [H | H]].
      * right. exists l. split; [apply list_elem_of_here | exact H].
      * left. exact H.
      * destruct (IH H) as [? | (l0 & Hin & Hc)]; [left; assumption|].
        right. exists l0. split; [apply list_elem_of_further, Hin | exact Hc].
Qed.

(** *** Stripping *)

Lemma lstrip_by_subset p s c : c ∈ lstrip_by p s -> c ∈ s.
Proof.
  induction s as [|a s IH]; simpl; [trivial|].
  destruct (p a); [|trivial].
  intros H. apply list_elem_of_further, IH, H.
Qed.

Lemma elem_of_rev (c : N) (s : list N) : c ∈ rev s <-> c ∈ s.
Proof. rewrite !list_elem_of_In. symmetry. apply in_rev. Qed.

Lemma forallb_rev (p : N -> bool) (s : list N) :
  forallb p (rev s) = forallb p s.
Proof.
  induction s as [|c s IH]; [reflexivity|].
  simpl. rewrite forallb_app, IH. simpl. rewrite andb_true_r. apply andb_comm.
Qed.

Lemma rstrip_by_subset p s c : c ∈ rstrip_by p s -> c ∈ s.
Proof.
  unfold rstrip_by. rewrite elem_of_rev. intros H.
  apply lstrip_by_subset in H. rewrite elem_of_rev in H. exact H.
Qed.

Lemma strip_subset s c : c ∈ strip s -> c ∈ s.
Proof.
  unfold strip, strip_by. intros H.
  apply rstrip_by_subset, lstrip_by_subset in H. exact H.
Qed.

Lemma lstrip_by_app_all p a b :
  forallb p a = true -> lstrip_by p (a ++ b) = lstrip_by p b.
Proof.
  induction a as [|c a IH]; simpl; [reflexivity|].
  intros H. apply andb_true_iff in H as [-> H]. apply IH, H.
Qed.

Lemma lstrip_by_all p a : forallb p a = true -> lstrip_by p a = [].
Proof.
  intros H. rewrite <- (app_nil_r a), lstrip_by_app_all by exact H. reflexivity.
Qed.

Lemma lstrip_by_app_keep p u v :
  forallb p u = false -> lstrip_by p (u ++ v) = lstrip_by p u ++ v.
Proof.
  induction u as [|a u IH]; simpl; intros H; [discriminate|].
  destruct (p a); simpl in *; [apply IH, H | reflexivity].
Qed.

(** [rstrip] read from the left. *)
Lemma rstrip_by_cons p c s :
  rstrip_by p (c :: s) =
  if forallb p (c :: s) then [] else c :: rstrip_by p s.
Proof.
  unfold rstrip_by. simpl rev.
  destruct (forallb p s) eqn:Hs.
  - rewrite lstrip_by_app_all by (rewrite forallb_rev; exact Hs).
    rewrite (lstrip_by_all p (rev s)) by (rewrite forallb_rev; exact Hs).
    simpl. rewrite Hs. destruct (p c); reflexivity.
  - assert (Hr : forallb p (rev s) = false) by (rewrite forallb_rev; exact Hs).
    rewrite lstrip_by_app_keep by exact Hr. rewrite rev_app_distr. simpl.
    rewrite Hs, andb_false_r. reflexivity.
Qed.

Lemma rstrip_by_all p s : forallb p s = true -> rstrip_by p s = [].
Proof.
  destruct s as [|c s]; [reflexivity|].
  intros H. rewrite rstrip_by_cons, H. reflexivity.
Qed.

Lemma rstrip_by_not_all p s :
  forallb p s = false -> rstrip_by p s <> [].
Proof.
  destruct s as [|c s]; [discriminate|].
  intros H. rewrite rstrip_by_cons, H. discriminate.
Qed.

Lemma rstrip_by_nil_inv p s : rstrip_by p s = [] -> forallb p s = true.
Proof.
  intros H. destruct (forallb p s) eqn:E; [reflexivity|].
  exfalso. exact (rstrip_by_not_all p s E H).
Qed.

(** A prefix is kept when what follows does not strip to nothing. *)
Lemma rstrip_by_app p a b :
  forallb p b = false -> rstrip_by p (a ++ b) = a ++ rstrip_by p b.
Proof.
  intros Hb. induction a as [|c a IH]; [reflexivity|].
  simpl app. rewrite rstrip_by_cons, IH.
  replace (forallb p (c :: a ++ b)) with false; [reflexivity|].
  simpl. rewrite forallb_app, Hb, !andb_false_r. reflexivity.
Qed.

Lemma rstrip_by_idem p s : rstrip_by p (rstrip_by p s) = rstrip_by p s.
Proof.
  induction s as [|c s IH]; [reflexivity|].
  rewrite rstrip_by_cons. destruct (forallb p (c :: s)) eqn:E; [reflexivity|].
  rewrite rstrip_by_cons, IH.
  simpl in E. simpl. destruct (p c); simpl in *; [|reflexivity].
  destruct (forallb p (rstrip_by p s)) eqn:E'; [|reflexivity].
  apply rstrip_by_all in E'. rewrite IH in E'.
  apply rstrip_by_nil_inv in E'. congruence.
Qed.

Lemma lstrip_by_head p s :
  match lstrip_by p s with [] => True | c :: _ => p c = false end.
Proof.
  induction s as [|a s IH]; simpl; [exact I|].
  destruct (p a) eqn:E; [exact IH | exact E].
Qed.

Lemma lstrip_by_fix p s :
  match s with [] => True | c :: _ => p c = false end -> lstrip_by p s = s.
Proof. destruct s as [|c s]; simpl; [reflexivity|]. intros ->. reflexivity. Qed.

Lemma rstrip_by_head p s :
  match s with [] => True | c :: _ => p c = false end ->
  match rstrip_by p s with [] => True | c :: _ => p c = false end.
Proof.
  destruct s as [|c s]; [trivial|]. intros Hc.
  rewrite rstrip_by_cons. simpl. rewrite Hc. simpl. exact Hc.
Qed.

(** [strip] returns a string that [strip] leaves alone. *)
Lemma strip_head s :
  match strip s with [] => True | c :: _ => is_space c = false end.
Proof. apply rstrip_by_head, lstrip_by_head. Qed.

Lemma strip_rstrip s : rstrip_by is_space (strip s) = strip s.
Proof. apply rstrip_by_idem. Qed.

Lemma strip_idem s : strip (strip s) = strip s.
Proof.
  unfold strip at 1, strip_by.
  rewrite (lstrip_by_fix is_space (strip s)) by apply strip_head.
  apply strip_rstrip.
Qed.

(** A stripped string keeps a prefix that starts with a non-blank. *)
Lemma strip_app_fix c a t :
  is_space c = false -> t <> [] -> rstrip_by is_space t = t ->
  strip (c :: a ++ t) = c :: a ++ t.
Proof.
  intros Hc Ht Hfix. unfold strip, strip_by.
  rewrite lstrip_by_fix by exact Hc.
  change (c :: a ++ t) with ((c :: a) ++ t).
  rewrite rstrip_by_app, Hfix; [reflexivity|].
  destruct (forallb is_space t) eqn:E; [|reflexivity].
  apply rstrip_by_all in E. congruence.
Qed.

(** Blank text strips to nothing and conversely. *)
Lemma strip_all_space s : forallb is_space s = true -> strip s = [].
Proof.
  intros H. unfold strip, strip_by. rewrite lstrip_by_all by exact H. reflexivity.
Qed.

Lemma lstrip_by_nil_inv p s : lstrip_by p s = [] -> forallb p s = true.
Proof.
  induction s as [|c s IH]; simpl; [reflexivity|].
  destruct (p c); [exact IH | discriminate].
Qed.

Lemma strip_nil_inv s : strip s = [] -> forallb is_space s = true.
Proof.
  unfold strip, strip_by. intros H.
  apply rstrip_by_nil_inv in H.
  pose proof (lstrip_by_head is_space s) as Hh.
  destruct (lstrip_by is_space s) as [|c u] eqn:E.
  - apply lstrip_by_nil_inv, E.
  - simpl in H. rewrite Hh in H. discriminate.
Qed.

(** *** Replacement *)

Lemma replace2_id o1 o2 new s : o1 ∉ s -> replace2 o1 o2 new s = s.
Proof.
  induction s as [|a s IH]; [reflexivity|].
  intros H. rewrite elem_of_cons in H.
  simpl. destruct s as [|b s']; [reflexivity|].
  destruct (N.eqb_spec a o1) as [->|Hne]; [intuition|].
  simpl. f_equal. apply IH. intuition.
Qed.

(** *** Stripping a text and its lines *)

Lemma rstrip_by_app_all p a w :
  forallb p w = true -> rstrip_by p (a ++ w) = rstrip_by p a.
Proof.
  intros H. unfold rstrip_by. rewrite rev_app_distr.
  rewrite lstrip_by_app_all by (rewrite forallb_rev; exact H). reflexivity.
Qed.

Lemma strip_app_space_l w l :
  forallb is_space w = true -> strip (w ++ l) = strip l.
Proof.
  intros H. unfold strip, strip_by. rewrite lstrip_by_app_all by exact H.
  reflexivity.
Qed.

Lemma strip_app_space_r l w :
  forallb is_space w = true -> strip (l ++ w) = strip l.
Proof.
  intros H. destruct (forallb is_space l) eqn:E.
  - rewrite !strip_all_space; [reflexivity | exact E |].
    rewrite forallb_app, E, H. reflexivity.
  - unfold strip, strip_by. rewrite lstrip_by_app_keep by exact E.
    apply rstrip_by_app_all, H.
Qed.

Lemma split_all sep (p : N -> bool) s :
  forallb p s = true -> Forall (fun l => forallb p l = true) (split sep s).
Proof.
  induction s as [|c s IH]; simpl; intros H.
  - repeat constructor.
  - apply andb_true_iff in H as [Hc Hs]. specialize (IH Hs).
    destruct (c =? sep); [constructor; [reflexivity | exact IH]|].
    destruct (split sep s) as [|l ls]; inversion IH; subst.
    + repeat constructor. simpl. rewrite Hc. reflexivity.
    + constructor; [simpl; rewrite Hc; assumption | assumption].
Qed.

(** The lines of [s.lstrip()]: leading blank lines go and the first line
    left loses its leading blanks. *)
Lemma split_lstrip s :
  exists blanks w l post,
    split NL s = blanks ++ (w ++ l) :: post
    /\ split NL (lstrip_by is_space s) = l :: post
    /\ Forall (fun b => forallb is_space b = true) blanks
    /\ forallb is_space w = true.
Proof.
  induction s as [|c s IH].
  - exists [], [], [], []. repeat split; constructor.
  - destruct (is_space c) eqn:Hc.
    + destruct IH as (blanks & w & l & post & Hs & Hl & Hb & Hw).
      cbn [lstrip_by]. rewrite Hc. cbn [split].
      destruct (N.eqb_spec c NL) as [->|Hne].
      * exists ([] :: blanks), w, l, post. rewrite Hs.
        repeat split; [exact Hl | constructor; [reflexivity | exact Hb] | exact Hw].
      * rewrite Hs. destruct blanks as [|b bs].
        -- exists [], (c :: w), l, post.
           repeat split; [exact Hl | constructor | simpl; rewrite Hc; exact Hw].
        -- inversion Hb; subst.
           exists ((c :: b) :: bs), w, l, post.
           repeat split; [exact Hl | | exact Hw].
           constructor; [simpl; rewrite Hc; assumption | assumption].
    + cbn [lstrip_by]. rewrite Hc.
      destruct (split NL (c :: s)) as [|l post] eqn:E;
        [exfalso; exact (split_nonempty _ _ E)|].
      exists [], [], l, post. repeat split; constructor.
Qed.

(** The lines of [s.rstrip()]: trailing blank lines go and the last line
    left loses its trailing blanks. *)
Lemma split_rstrip s :
  exists pre l w blanks,
    split NL (rstrip_by is_space s) = pre ++ [l]
    /\ split NL s = pre ++ (l ++ w) :: blanks
    /\ forallb is_space w = true
    /\ Forall (fun b => forallb is_space b = true) blanks.
Proof.
  induction s as [|c s IH].
  - exists [], [], [], []. repeat split; constructor.
  - rewrite rstrip_by_cons. destruct (forallb is_space (c :: s)) eqn:Hall.
    + pose proof (split_all NL is_space _ Hall) as Hb.
      destruct (split NL (c :: s)) as [|w blanks] eqn:E;
        [exfalso; exact (split_nonempty _ _ E)|].
      inversion Hb; subst.
      exists [], [], w, blanks. repeat split; assumption.
    + destruct IH as (pre & l & w & blanks & Hr & Hs & Hw & Hb).
      cbn [split]. destruct (N.eqb_spec c NL) as [->|Hne].
      * exists ([] :: pre), l, w, blanks. rewrite Hr, Hs.
        repeat split; assumption.
      * rewrite Hr, Hs. destruct pre as [|q qs].
        -- exists [], (c :: l), w, blanks. repeat split; assumption.
        -- exists ((c :: q) :: qs), l, w, blanks. repeat split; assumption.
Qed.

End TextFacts.

(** ** The text cleaner *)

Module CleanerProps.
Import Py App TextFacts.
Local Open Scope string_scope.
Local Open Scope list_scope.
Local Open Scope N_scope.

Lemma format_loop_map lines acc :
  format_loop lines acc = acc ++ map format_line lines.
Proof.
  revert acc. induction lines as [|l ls IH]; intros acc; simpl.
  - symmetry. apply app_nil_r.
  - rewrite IH, <- app_assoc. reflexivity.
Qed.

Lemma contains_double_single t :
  contains (str "**") t = true -> contains (str "*") t = true.
Proof.
  induction t as [|a t IH]; simpl; [discriminate|].
  intros H. apply orb_true_iff in H as [H|H].
  - destruct t as [|b t]; [rewrite andb_false_r in H; discriminate|].
    apply andb_true_iff in H as [-> _]. reflexivity.
  - rewrite (IH H). apply orb_true_r.
Qed.

Lemma format_response_bold t :
  contains (str "**") t = true ->
  format_structured_response t = join [NL] (map format_line (split NL t)).
Proof.
  intros H. unfold format_structured_response.
  rewrite H, (contains_double_single t H). simpl.
  rewrite format_loop_map. reflexivity.
Qed.

Lemma format_response_plain t :
  contains (str "**") t = false -> format_structured_response t = t.
Proof. intros H. unfold format_structured_response. rewrite H. reflexivity. Qed.

(** The marker test of [extract_structured_content] never changes the
    result: [format_structured_response] has its own, narrower test. *)
Lemma clean_format x : clean x = format_structured_response (unescape x).
Proof.
  unfold clean. cbv zeta.
  destruct (existsb _ markers) eqn:E; [reflexivity|].
  simpl in E. apply orb_false_iff in E as [E _].
  symmetry. apply format_response_plain, E.
Qed.

(** A formatted line is made of characters of the line, [#], [-] and
    the space. *)
Lemma format_line_chars l c :
  c ∈ format_line l -> c ∈ l \/ c = 35 \/ c = 32 \/ c = 45.
Proof.
  assert (Hdrop : forall s : list N, c ∈ strip (drop 1 (strip s)) -> c ∈ s).
  { intros s H. apply strip_subset in H.
    destruct (strip s) as [|a u] eqn:E; simpl in H.
    - apply elem_of_nil in H. contradiction.
    - rewrite drop_0 in H. apply strip_subset. rewrite E.
      apply list_elem_of_further, H. }
  unfold format_line. cbv zeta.
  destruct (negb (truthy (strip l))).
  { intros H. apply elem_of_nil in H. contradiction. }
  destruct (_ && _).
  { change (str "### ") with [35; 35; 35; 32].
    rewrite elem_of_app, !elem_of_cons, elem_of_nil.
    intros [H|H]; [intuition | left; apply strip_subset, H]. }
  destruct (_ && _).
  { change (str "- ") with [45; 32].
    rewrite elem_of_app, !elem_of_cons, elem_of_nil.
    intros [H|H]; [intuition | left; apply Hdrop, H]. }
  destruct (startswith GLYPH _).
  { change (str "- ") with [45; 32].
    rewrite elem_of_app, !elem_of_cons, elem_of_nil.
    intros [H|H]; [intuition | left; apply Hdrop, H]. }
  intros H. left. apply strip_subset, H.
Qed.

Lemma format_line_no_NL l : NL ∉ l -> NL ∉ format_line l.
Proof.
  intros Hl H. apply format_line_chars in H as [H|[H|[H|H]]];
    [exact (Hl H) | discriminate..].
Qed.

Lemma formatted_lines_no_NL t :
  Forall (fun l => NL ∉ l) (map format_line (split NL t)).
Proof.
  apply Forall_forall. intros l Hin.
  apply list_elem_of_In, in_map_iff in Hin as (l0 & <- & Hin).
  apply format_line_no_NL.
  pose proof (split_no_sep NL t) as Hall.
  rewrite Forall_forall in Hall. apply Hall. apply list_elem_of_In, Hin.
Qed.

Lemma formatted_lines_nonempty t : map format_line (split NL t) <> [].
Proof.
  pose proof (split_nonempty NL t). destruct (split NL t); [congruence | discriminate].
Qed.

(** The lines of a formatted text are the formatted lines. *)
Lemma split_format_response t :
  contains (str "**") t = true ->
  split NL (format_structured_response t) = map format_line (split NL t).
Proof.
  intros H. rewrite format_response_bold by exact H.
  apply split_join; [apply formatted_lines_nonempty | apply formatted_lines_no_NL].
Qed.

(** A trimmed line that starts with neither an asterisk nor the glyph is
    left as it is. *)
Lemma format_line_fixed u :
  strip u = u -> u <> [] ->
  startswith (str "*") u = false -> startswith GLYPH u = false ->
  format_line u = u.
Proof.
  intros Hs Hne Hstar Hglyph. unfold format_line. cbv zeta. rewrite Hs.
  destruct u as [|a u]; [congruence|].
  rewrite Hglyph, Hstar.
  replace (startswith (str "**") (a :: u)) with false; [reflexivity|].
  simpl in Hstar. simpl. rewrite andb_true_r in Hstar. rewrite Hstar. reflexivity.
Qed.

(** What remains of a bullet line after its first character is not blank,
    unless the line is a lone asterisk. *)
Lemma bullet_rest_nonempty s a s' :
  strip s = s -> s = a :: s' -> s' <> [] -> strip s' <> [].
Proof.
  intros Hs -> Hne H.
  apply strip_nil_inv in H.
  assert (Hr : rstrip_by is_space (a :: s') = a :: s').
  { rewrite <- Hs at 1. rewrite strip_rstrip. exact Hs. }
  rewrite rstrip_by_cons in Hr.
  destruct (forallb is_space (a :: s')); [discriminate|].
  rewrite (rstrip_by_all is_space s' H) in Hr. congruence.
Qed.

(** Formatting a formatted line again changes nothing, except for a line
    that is a lone asterisk. *)
Lemma format_line_idem l :
  strip l <> str "*" -> format_line (format_line l) = format_line l.
Proof.
  intros Hlone.
  pose proof (strip_idem l) as Hs.
  pose proof (strip_rstrip l) as Hr.
  unfold format_line at 2. unfold format_line at 2. cbv zeta.
  destruct (strip l) as [|a s'] eqn:E; [reflexivity|].
  cbn [truthy negb].
  destruct (startswith (str "**") (a :: s') && endswith (str "**") (a :: s')) eqn:Hhead.
  { apply format_line_fixed; try reflexivity; [|discriminate].
    change (str "### " ++ a :: s') with (35 :: [35; 35; 32] ++ a :: s').
    apply strip_app_fix; [reflexivity | discriminate | exact Hr]. }
  destruct (startswith (str "*") (a :: s') && negb (startswith (str "**") (a :: s')))
    eqn:Hbullet.
  { assert (Hrest : strip (drop 1 (a :: s')) <> []).
    { simpl. rewrite drop_0.
      apply (bullet_rest_nonempty (a :: s') a s' Hs eq_refl).
      intros ->. apply Hlone.
      apply andb_true_iff in Hbullet as [Hb _].
      change (startswith (str "*") [a]) with ((42 =? a) && true) in Hb.
      rewrite andb_true_r in Hb. apply N.eqb_eq in Hb. subst a. reflexivity. }
    apply format_line_fixed; try reflexivity; [|discriminate].
    change (str "- " ++ strip (drop 1 (a :: s')))
      with (45 :: [32] ++ strip (drop 1 (a :: s'))).
    apply strip_app_fix; [reflexivity | exact Hrest | apply strip_rstrip]. }
  destruct (startswith GLYPH (a :: s')) eqn:Hglyph.
  { assert (Hrest : strip (drop 1 (a :: s')) <> []).
    { simpl. rewrite drop_0.
      apply (bullet_rest_nonempty (a :: s') a s' Hs eq_refl).
      intros ->. change (startswith GLYPH [a]) with ((226 =? a) && false) in Hglyph.
      rewrite andb_false_r in Hglyph. discriminate. }
    apply format_line_fixed; try reflexivity; [|discriminate].
    change (str "- " ++ strip (drop 1 (a :: s')))
      with (45 :: [32] ++ strip (drop 1 (a :: s'))).
    apply strip_app_fix; [reflexivity | exact Hrest | apply strip_rstrip]. }
  unfold format_line. cbv zeta. rewrite Hs. cbn [truthy negb].
  rewrite Hhead, Hbullet, Hglyph. reflexivity.
Qed.

Lemma format_response_chars t c :
  c ∈ format_structured_response t ->
  c ∈ t \/ c = NL \/ c = 35 \/ c = 32 \/ c = 45.
Proof.
  destruct (contains (str "**") t) eqn:E.
  - rewrite format_response_bold by exact E. intros H.
    apply elem_of_join in H as [H | (l & Hl & Hc)].
    + apply list_elem_of_singleton in H. intuition.
    + apply list_elem_of_In, in_map_iff in Hl as (l0 & <- & Hl0).
      apply format_line_chars in Hc as [Hc | Hc]; [left | intuition].
      clear -Hc Hl0. revert l0 Hc Hl0.
      induction t as [|a t IH]; simpl; intros l0 Hc Hl0.
      * destruct Hl0 as [<- | []]. exact Hc.
      * destruct (a =? NL).
        { destruct Hl0 as [<- | Hl0].
          - apply elem_of_nil in Hc. contradiction.
          - apply list_elem_of_further. eapply IH; eassumption. }
        destruct (split NL t) as [|l ls] eqn:Et.
        { destruct Hl0 as [<- | []]. apply list_elem_of_singleton in Hc.
          subst c. apply list_elem_of_here. }
        destruct Hl0 as [<- | Hl0].
        { apply elem_of_cons in Hc as [-> | Hc]; [apply list_elem_of_here|].
          apply list_elem_of_further. apply (IH l Hc). left. reflexivity. }
        apply list_elem_of_further. apply (IH l0 Hc). right. exact Hl0.
  - rewrite format_response_plain by exact E. intuition.
Qed.

(** Formatting twice is formatting once, when no line is a lone
    asterisk. *)
Lemma format_response_idem t :
  (forall l, l ∈ split NL t -> strip l <> str "*") ->
  format_structured_response (format_structured_response t)
  = format_structured_response t.
Proof.
  intros Hlone.
  destruct (contains (str "**") t) eqn:E;
    [|rewrite !(format_response_plain t E); reflexivity].
  destruct (contains (str "**") (format_structured_response t)) eqn:E';
    [|apply format_response_plain, E'].
  rewrite (format_response_bold _ E'), split_format_response by exact E.
  rewrite (format_response_bold t E). f_equal.
  rewrite map_map. apply map_ext_in. intros l Hl.
  apply format_line_idem, Hlone, list_elem_of_In, Hl.
Qed.

Lemma unescape_id x : BACKSLASH ∉ x -> unescape x = x.
Proof.
  intros H. unfold unescape. rewrite (replace2_id _ _ _ x H).
  apply replace2_id, H.
Qed.

Lemma strip_keeps_head a r :
  is_space a = false -> strip (a :: r) = a :: rstrip_by is_space r.
Proof.
  intros Ha. unfold strip, strip_by.
  rewrite lstrip_by_fix by exact Ha.
  rewrite rstrip_by_cons. simpl. rewrite Ha. reflexivity.
Qed.

Lemma canonical_no_lone_asterisk x l :
  canonical x = true -> l ∈ split NL x -> strip l <> str "*".
Proof.
  unfold canonical. rewrite forallb_forall. intros Hall Hl.
  specialize (Hall l (proj1 (list_elem_of_In _ _) Hl)).
  unfold already_formatted_line in Hall.
  destruct l as [|a r]; [discriminate|].
  assert (Ha : a = 45 \/ a = 35).
  { change (str "- ") with [45; 32] in Hall.
    change (str "### ") with [35; 35; 35; 32] in Hall.
    cbn [startswith truthy negb orb] in Hall.
    destruct (N.eqb_spec 45 a) as [<-|_]; [left; reflexivity|].
    destruct (N.eqb_spec 35 a) as [<-|_]; [right; reflexivity|].
    discriminate. }
  destruct Ha as [-> | ->]; rewrite strip_keeps_head by reflexivity; discriminate.
Qed.

Lemma replace2_no_pair o1 o2 new s :
  contains [o1; o2] s = false -> replace2 o1 o2 new s = s.
Proof.
  induction s as [|a s IH]; [reflexivity|].
  destruct s as [|b s']; [reflexivity|].
  intros H. cbn [contains] in H. apply orb_false_iff in H as [Hhead Hrest].
  cbn [startswith] in Hhead. rewrite andb_true_r in Hhead.
  cbn [replace2]. rewrite (N.eqb_sym a o1), (N.eqb_sym b o2), Hhead.
  f_equal. apply IH. exact Hrest.
Qed.

(** The escape replacement leaves a text without escape sequence as it
    is. *)
Lemma unescape_fixed y : has_escape y = false -> unescape y = y.
Proof.
  unfold has_escape, unescape. intros H.
  apply orb_false_iff in H as [Hn Hq].
  rewrite (replace2_no_pair BACKSLASH 110 [NL] y Hn).
  apply replace2_no_pair, Hq.
Qed.

(** C5 (as stated, refuted): the text [* item] contains the marker [*],
    its only line starts with a single asterisk, and the cleaner returns
    it unchanged instead of the hyphen-bullet line [- item]. *)
Lemma C5_counterexample :
  let x := str "* item" in
  existsb (fun marker => contains marker (unescape x)) markers = true
  /\ split NL (unescape x) = [x]
  /\ startswith (str "*") (strip x) = true
  /\ startswith (str "**") (strip x) = false
  /\ clean x = x
  /\ clean x <> str "- item".
Proof. vm_compute. repeat split; discriminate. Qed.

(** C5 (amended): when the text, after the escape replacement, contains
    a double asterisk, the cleaner reformats it line by line: the output
    has one line per input line, a line whose trimmed form starts with a
    single asterisk (not a double one) becomes the hyphen-bullet line of
    its trimmed remainder, and a line whose trimmed form starts and ends
    with a double asterisk becomes a level-3 heading line.  A text that
    contains no double asterisk after the escape replacement, whatever
    other markers it holds, is returned as that replacement left it. *)
Theorem C5_reformat_when_bold x :
  (contains (str "**") (unescape x) = true ->
   length (split NL (clean x)) = length (split NL (unescape x))
   /\ forall i l, split NL (unescape x) !! i = Some l ->
        (startswith (str "*") (strip l) = true ->
         startswith (str "**") (strip l) = false ->
         split NL (clean x) !! i = Some (str "- " ++ strip (drop 1 (strip l))))
        /\ (startswith (str "**") (strip l) = true ->
            endswith (str "**") (strip l) = true ->
            split NL (clean x) !! i = Some (str "### " ++ strip l)))
  /\ (contains (str "**") (unescape x) = false -> clean x = unescape x).
Proof.
  split.
  - intros Hbold. rewrite clean_format, split_format_response by exact Hbold.
    split; [apply length_map|].
    intros i l Hl.
    change (map format_line (split NL (unescape x)))
      with (format_line <$> split NL (unescape x)).
    rewrite list_lookup_fmap, Hl. cbn [fmap option_fmap option_map].
    unfold format_line. cbv zeta.
    split.
    + intros Hstar Hdouble.
      destruct (strip l) as [|a s']; [discriminate|].
      cbn [truthy negb]. rewrite Hstar, Hdouble. reflexivity.
    + intros Hdouble Hend.
      destruct (strip l) as [|a s']; [discriminate|].
      cbn [truthy negb]. rewrite Hdouble, Hend. reflexivity.
  - intros Hplain. rewrite clean_format. apply format_response_plain, Hplain.
Qed.

Lemma C5_reformat_when_bold_witness :
  let x := str "**Findings**" ++ NL :: str "* first" in
  let y := str "* item" ++ NL :: str "Summary: none" in
  (length (split NL (clean x)) = length (split NL (unescape x))
   /\ split NL (clean x) !! 0%nat = Some (str "### **Findings**")
   /\ split NL (clean x) !! 1%nat = Some (str "- first"))
  /\ clean y = y.
Proof.
  intros x y. split.
  - destruct (proj1 (C5_reformat_when_bold x) eq_refl) as [Hlen Hlines].
    split; [exact Hlen|]. split.
    + exact (proj2 (Hlines 0%nat (str "**Findings**") eq_refl) eq_refl eq_refl).
    + exact (proj1 (Hlines 1%nat (str "* first") eq_refl) eq_refl eq_refl).
  - exact (proj2 (C5_reformat_when_bold y) eq_refl).
Defined.

(** C9 (as stated, refuted): the first text below is an output of the
    cleaner, made of one heading line and one bullet line, and cleaning
    it twice differs from cleaning it once: each pass removes one level
    of backslash escaping.  The second text is one bullet line; the
    escape replacement breaks it in two, the second a lone asterisk,
    which becomes an empty bullet that the next pass trims. *)
Lemma C9_counterexample :
  let y := str "**A**" ++ NL :: str "* " ++ [92; 92; 92; 34] ++ str "q" in
  let x := str "### **A**" ++ NL :: str "- " ++ [92; 92; 34] ++ str "q" in
  let x' := str "- **a" ++ [92; 110] ++ str "*" in
  (x = clean y
   /\ canonical x = true
   /\ clean x = str "### **A**" ++ NL :: str "- " ++ [92; 34] ++ str "q"
   /\ clean (clean x) = str "### **A**" ++ NL :: str "- " ++ [34] ++ str "q"
   /\ clean (clean x) <> clean x)
  /\ (canonical x' = true
      /\ clean x' = str "- **a" ++ NL :: str "- "
      /\ clean (clean x') = str "- **a" ++ NL :: str "-"
      /\ clean (clean x') <> clean x').
Proof. vm_compute. repeat split; discriminate. Qed.

(** C9 (amended): cleaning twice equals cleaning once for every text
    whose cleaned form holds no escape sequence (a backslash followed by
    [n] or by a double quote) and which, after the escape replacement, is
    in canonical markdown form, or more generally either holds no double
    asterisk or has no line that trims to a lone asterisk. *)
Theorem C9_clean_idempotent x :
  has_escape (clean x) = false ->
  (canonical (unescape x) = true
   \/ (contains (str "**") (unescape x) = true ->
       forall l, l ∈ split NL (unescape x) -> strip l <> str "*")) ->
  clean (clean x) = clean x.
Proof.
  intros Hesc Hform.
  rewrite (clean_format (clean x)), (unescape_fixed _ Hesc), clean_format.
  destruct (contains (str "**") (unescape x)) eqn:Hbold.
  - apply format_response_idem.
    destruct Hform as [Hc | Hl]; [|exact (Hl eq_refl)].
    intros l. apply canonical_no_lone_asterisk, Hc.
  - rewrite !(format_response_plain _ Hbold). reflexivity.
Qed.

Lemma C9_clean_idempotent_witness :
  let x := str "### **Loss**" ++ NL :: str "- " ++ [92] ++ str "alpha decays" in
  clean (clean x) = clean x.
Proof.
  intros x. apply C9_clean_idempotent.
  - vm_compute. reflexivity.
  - left. vm_compute. reflexivity.
Defined.

End CleanerProps.

(** ** Facts about the matcher *)

Module ReFacts.
Import Py Re.

Local Arguments stop : simpl never.

Section Rep.
Context {A : Type}.
Variable icase : bool.
Variable a : atom.

(** Whatever a repetition returns comes from its continuation, called
    after some number of accepted characters. *)
Lemma rep_sound greedy lo hi pos s (k : nat -> list N -> option A) m :
  rep icase a greedy lo hi pos s k = Some m ->
  exists n, (lo <= n)%nat /\ (n <= length s)%nat
    /\ forallb (atom_ok icase a) (take n s) = true
    /\ k (pos + n)%nat (drop n s) = Some m.
Proof.
  revert lo hi pos. induction s as [|c s IH]; intros lo hi pos H.
  - assert (Hstop : stop lo pos [] k = Some m).
    { destruct hi as [[|h]|]; exact H. }
    unfold stop in Hstop. destruct lo; [|discriminate].
    exists 0%nat. rewrite Nat.add_0_r. repeat split; [lia.. | exact Hstop].
  - assert (Hcases : stop lo pos (c :: s) k = Some m
              \/ (atom_ok icase a c = true
                  /\ rep icase a greedy (pred lo) (pred <$> hi) (S pos) s k = Some m)).
    { destruct hi as [[|h]|]; simpl in H; [left; exact H | |];
        (destruct (atom_ok icase a c); [|left; exact H]);
        (destruct greedy;
          [ destruct (rep icase a true (pred lo) _ (S pos) s k) eqn:E;
              [right; split; [reflexivity | congruence] | left; exact H]
          | destruct (stop lo pos (c :: s) k) eqn:E;
              [left; congruence | right; split; [reflexivity | exact H]] ]). }
    destruct Hcases as [Hstop | [Hc Hrec]].
    + unfold stop in Hstop. destruct lo; [|discriminate].
      exists 0%nat. rewrite Nat.add_0_r. simpl. repeat split; [lia.. | exact Hstop].
    + apply IH in Hrec as (n & Hlo & Hlen & Hall & Hk).
      exists (S n). simpl. rewrite Hc, Hall.
      replace (pos + S n)%nat with (S pos + n)%nat by lia.
      repeat split; [lia.. | exact Hk].
Qed.

(** A repetition succeeds as soon as its continuation succeeds after
    some admissible number of accepted characters. *)
Lemma rep_complete greedy lo hi pos s (k : nat -> list N -> option A) n :
  (lo <= n)%nat -> within hi n -> (n <= length s)%nat ->
  forallb (atom_ok icase a) (take n s) = true ->
  is_Some (k (pos + n)%nat (drop n s)) ->
  is_Some (rep icase a greedy lo hi pos s k).
Proof.
  revert lo hi pos n. induction s as [|c s IH]; intros lo hi pos n Hlo Hhi Hlen Hall Hk.
  - simpl in Hlen. assert (n = 0%nat) as -> by lia.
    assert (lo = 0%nat) as -> by lia.
    rewrite Nat.add_0_r in Hk. destruct hi as [[|h]|]; exact Hk.
  - destruct n as [|n].
    + assert (lo = 0%nat) as -> by lia.
      rewrite Nat.add_0_r in Hk. simpl in Hk.
      assert (Hstop : is_Some (stop 0 pos (c :: s) k)) by exact Hk.
      destruct hi as [[|h]|]; simpl; [exact Hstop | |];
        (destruct (atom_ok icase a c); [|exact Hstop]);
        (destruct greedy;
          [ destruct (rep icase a true _ _ (S pos) s k); [eexists; reflexivity | exact Hstop]
          | destruct (stop 0 pos (c :: s) k); [eexists; reflexivity|];
            destruct Hstop as [? Hs]; discriminate ]).
    + simpl in Hall. apply andb_true_iff in Hall as [Hc Hall].
      assert (Hrec : is_Some (rep icase a greedy (pred lo) (pred <$> hi) (S pos) s k)).
      { apply (IH _ _ _ n); [lia | | simpl in Hlen; lia | exact Hall |].
        - destruct hi as [h|]; simpl in *; [lia | exact I].
        - replace (S pos + n)%nat with (pos + S n)%nat by lia. exact Hk. }
      destruct hi as [[|h]|]; simpl; [simpl in Hhi; lia | |];
        rewrite Hc;
        (destruct greedy;
          [ destruct (rep icase a true _ _ (S pos) s k);
              [eexists; reflexivity | destruct Hrec as [? Hr]; discriminate]
          | destruct (stop lo pos (c :: s) k); [eexists; reflexivity | exact Hrec] ]).
Qed.
End Rep.

(** A case-sensitive literal consumes exactly its characters. *)
Lemma rmatch_lits lits pos t cs k :
  rmatch false (seq (map (fun c => Atom (Lit c)) lits)) pos (lits ++ t) cs k
  = k (pos + length lits)%nat t cs.
Proof.
  revert pos. induction lits as [|c lits IH]; intros pos.
  - simpl. rewrite Nat.add_0_r. reflexivity.
  - cbn [map seq foldr rmatch app atom_ok]. rewrite N.eqb_refl.
    change (foldr Cat Eps (map (fun c => Atom (Lit c)) lits))
      with (seq (map (fun c => Atom (Lit c)) lits)).
    rewrite IH. f_equal. simpl. lia.
Qed.

Lemma rmatch_lits_sound lits pos t cs k m :
  rmatch false (seq (map (fun c => Atom (Lit c)) lits)) pos t cs k = Some m ->
  exists t', t = lits ++ t' /\ k (pos + length lits)%nat t' cs = Some m.
Proof.
  revert pos t. induction lits as [|c lits IH]; intros pos t H.
  - exists t. simpl in *. rewrite Nat.add_0_r. split; [reflexivity | exact H].
  - cbn [map seq foldr rmatch atom_ok] in H.
    destruct t as [|x t]; [discriminate|].
    destruct (N.eqb_spec c x) as [<-|]; [|discriminate].
    apply IH in H as (t' & -> & Hk).
    exists t'. split; [reflexivity|].
    replace (pos + length (c :: lits))%nat with (S pos + length lits)%nat
      by (simpl; lia).
    exact Hk.
Qed.

Lemma first_title_match_some pats p line :
  In p pats -> is_Some (re_match p line) ->
  is_Some (App.first_title_match pats line).
Proof.
  induction pats as [|q pats IH]; intros Hin Hp; [destruct Hin|].
  simpl. destruct (re_match q line) eqn:E; [eexists; reflexivity|].
  destruct Hin as [-> | Hin]; [|exact (IH Hin Hp)].
  rewrite E in Hp. destruct Hp as [? Hp]. discriminate.
Qed.

End ReFacts.

(** ** The record parser *)

Module ParserProps.
Import Py Re App Scenarios TextFacts ReFacts.
Local Open Scope string_scope.
Local Open Scope list_scope.
Local Open Scope N_scope.

Local Arguments parse_line : simpl never.

Lemma dict_truthy_insert (k : string) (v : list N) (d : gmap string (list N)) :
  dict_truthy (<[k := v]> d) = true.
Proof.
  unfold dict_truthy. rewrite bool_decide_eq_false_2; [reflexivity|].
  apply insert_non_empty.
Qed.

Section Parser.

Variable uni_decimal : N -> bool.
Variable uni_alnum : N -> bool.

Local Abbreviation title_patterns := (title_patterns uni_decimal).
Local Abbreviation is_title_line := (is_title_line uni_decimal).
Local Abbreviation title_line_count := (title_line_count uni_decimal).
Local Abbreviation parse_line := (parse_line uni_decimal uni_alnum).
Local Abbreviation parse_paper_data := (parse_paper_data uni_decimal uni_alnum).
Local Abbreviation is_numbered := (is_numbered uni_decimal).
Local Abbreviation is_paper_list_response :=
  (is_paper_list_response uni_decimal uni_alnum).

Lemma new_paper_truthy t : dict_truthy (new_paper t) = true.
Proof. apply dict_truthy_insert. Qed.

(** What one iteration of the loop does to the state. *)
Lemma parse_line_cases papers cur l :
  (is_title_line l = true
   /\ exists t, parse_line (papers, cur) l
        = (if dict_truthy cur then papers ++ [cur] else papers, new_paper t))
  \/ (is_title_line l = false
      /\ (parse_line (papers, cur) l = (papers, cur)
          \/ exists k v, assigned_field k
               /\ parse_line (papers, cur) l = (papers, <[k := v]> cur))).
Proof.
  unfold App.parse_line, App.is_title_line. cbv zeta.
  destruct (strip l) as [|a s'] eqn:E.
  { right. split; [reflexivity | left; reflexivity]. }
  cbn [truthy negb andb].
  destruct (first_title_match title_patterns (a :: s')) as [m|] eqn:Et.
  { left. split; [apply bool_decide_eq_true_2; eexists; reflexivity|].
    eexists. reflexivity. }
  right. split; [apply bool_decide_eq_false_2; intros [? ?]; discriminate|].
  unfold is_not_None.
  destruct (re_search _ _);
    [right; exists "authors"; eexists; split; [left; reflexivity | reflexivity]|].
  destruct (re_search _ _);
    [right; exists "published"; eexists; split;
       [right; left; reflexivity | reflexivity]|].
  destruct (re_search _ _);
    [right; exists "summary"; eexists; split;
       [right; right; left; reflexivity | reflexivity]|].
  destruct (re_search _ _);
    [right; exists "url"; eexists; split;
       [right; right; right; reflexivity | reflexivity]|].
  left. reflexivity.
Qed.

Lemma parse_records_of x :
  parse_paper_data x
  = records_of (fold_left parse_line (split NL x) ([], ∅)).
Proof.
  unfold App.parse_paper_data, records_of, record_open. cbv zeta.
  destruct (fold_left _ _ _) as [papers cur]. reflexivity.
Qed.

Lemma length_records_of (st : state) :
  length (records_of st)
  = (length (fst st) + if record_open st then 1 else 0)%nat.
Proof.
  unfold records_of. destruct (record_open st).
  - rewrite length_app. reflexivity.
  - lia.
Qed.

(** A title line adds exactly one record and leaves a record open. *)
Lemma parse_line_title st l :
  is_title_line l = true ->
  record_open (parse_line st l) = true
  /\ length (records_of (parse_line st l)) = S (length (records_of st)).
Proof.
  destruct st as [papers cur]. intros Ht.
  destruct (parse_line_cases papers cur l) as [[_ [t ->]] | [Hf _]];
    [|congruence].
  rewrite !length_records_of. unfold record_open. simpl.
  rewrite new_paper_truthy. split; [reflexivity|].
  destruct (dict_truthy cur); [rewrite length_app; simpl|]; lia.
Qed.

(** Any other line keeps an open record open and adds a record only by
    opening one. *)
Lemma parse_line_other st l :
  is_title_line l = false ->
  (record_open st = true -> record_open (parse_line st l) = true)
  /\ fst (parse_line st l) = fst st
  /\ (length (records_of st) <= length (records_of (parse_line st l)))%nat.
Proof.
  destruct st as [papers cur]. intros Hf.
  destruct (parse_line_cases papers cur l)
    as [[Ht _] | [_ [-> | (k & v & _ & ->)]]]; [congruence | |].
  - repeat split; [trivial | lia].
  - rewrite !length_records_of. unfold record_open. simpl.
    rewrite dict_truthy_insert. repeat split.
    destruct (dict_truthy cur); lia.
Qed.

Local Abbreviation count_titles lines :=
  (length (filter (fun line => is_title_line line = true) lines)).

(** Once a record is open, the records are counted by the title lines. *)
Lemma fold_parse_open lines st :
  record_open st = true ->
  length (records_of (fold_left parse_line lines st))
  = (length (records_of st) + count_titles lines)%nat.
Proof.
  revert st. induction lines as [|l ls IH]; intros st Hopen; cbn [fold_left].
  - simpl. lia.
  - rewrite filter_cons. destruct (decide (is_title_line l = true)) as [Ht | Hf].
    + destruct (parse_line_title st l Ht) as [Ho Hlen].
      rewrite (IH _ Ho), Hlen. simpl. lia.
    + apply not_true_is_false in Hf.
      destruct (parse_line_other st l Hf) as (Ho & Hfst & Hle).
      rewrite (IH _ (Ho Hopen)). f_equal.
      rewrite !length_records_of, Hfst, Hopen, (Ho Hopen). reflexivity.
Qed.

(** In general there is at most one record more than title lines. *)
Lemma fold_parse_bounds lines st :
  (length (records_of st) + count_titles lines
   <= length (records_of (fold_left parse_line lines st))
   <= length (records_of st) + count_titles lines + 1)%nat.
Proof.
  destruct (record_open st) eqn:Hopen.
  { rewrite fold_parse_open by exact Hopen. lia. }
  revert st Hopen. induction lines as [|l ls IH]; intros st Hopen; cbn [fold_left].
  - simpl. lia.
  - rewrite filter_cons. destruct (decide (is_title_line l = true)) as [Ht | Hf].
    + destruct (parse_line_title st l Ht) as [Ho Hlen].
      rewrite (fold_parse_open _ _ Ho), Hlen. simpl. lia.
    + apply not_true_is_false in Hf.
      destruct (parse_line_other st l Hf) as (_ & Hfst & Hle).
      destruct (record_open (parse_line st l)) eqn:Ho.
      * rewrite (fold_parse_open _ _ Ho).
        rewrite !length_records_of, Hfst, Hopen, Ho. lia.
      * specialize (IH _ Ho).
        rewrite !length_records_of, Hfst, Hopen, Ho in *. lia.
Qed.

(** The parser returns one record per title line, and at most one more. *)
Lemma parse_length_bounds x :
  (title_line_count x <= length (parse_paper_data x) <= title_line_count x + 1)%nat.
Proof.
  rewrite parse_records_of. unfold App.title_line_count.
  pose proof (fold_parse_bounds (split NL x) ([], ∅)) as H.
  simpl in H. exact H.
Qed.

(** When the first line is a title line there is exactly one record per
    title line. *)
Lemma parse_length_exact x l rest :
  split NL x = l :: rest -> is_title_line l = true ->
  length (parse_paper_data x) = title_line_count x.
Proof.
  intros Hx Ht. rewrite parse_records_of. unfold App.title_line_count.
  rewrite Hx. cbn [fold_left].
  destruct (parse_line_title ([], ∅) l Ht) as [Ho Hlen].
  rewrite (fold_parse_open _ _ Ho), Hlen, filter_cons, decide_True by exact Ht.
  change (length (records_of (([], ∅) : state))) with 0%nat.
  cbn [length]. lia.
Qed.

(** *** The parser does not see surrounding blanks *)

Lemma parse_line_strip st l1 l2 :
  strip l1 = strip l2 -> parse_line st l1 = parse_line st l2.
Proof.
  intros H. unfold App.parse_line. destruct st as [papers cur]. cbv zeta.
  rewrite H. reflexivity.
Qed.

Lemma parse_line_blank st l :
  forallb is_space l = true -> parse_line st l = st.
Proof.
  intros H. unfold App.parse_line. destruct st as [papers cur]. cbv zeta.
  rewrite (strip_all_space l H). reflexivity.
Qed.

Lemma fold_parse_blanks blanks st :
  Forall (fun b => forallb is_space b = true) blanks ->
  fold_left parse_line blanks st = st.
Proof.
  intros H. revert st. induction H as [|b bs Hb _ IH]; intros st; simpl.
  - reflexivity.
  - rewrite (parse_line_blank st b Hb). apply IH.
Qed.

Lemma parse_lstrip x :
  parse_paper_data (lstrip_by is_space x) = parse_paper_data x.
Proof.
  rewrite !parse_records_of.
  destruct (split_lstrip x) as (blanks & w & l & post & -> & -> & Hb & Hw).
  rewrite fold_left_app, (fold_parse_blanks blanks _ Hb). simpl.
  rewrite (parse_line_strip _ (w ++ l) l) by (apply strip_app_space_l, Hw).
  reflexivity.
Qed.

Lemma parse_rstrip x :
  parse_paper_data (rstrip_by is_space x) = parse_paper_data x.
Proof.
  rewrite !parse_records_of.
  destruct (split_rstrip x) as (pre & l & w & blanks & -> & -> & Hw & Hb).
  rewrite !fold_left_app. simpl.
  rewrite (fold_parse_blanks blanks _ Hb).
  rewrite (parse_line_strip _ (l ++ w) l) by (apply strip_app_space_r, Hw).
  reflexivity.
Qed.

(** Parsing [text.strip()] is parsing [text]. *)
Lemma parse_strip x : parse_paper_data (strip x) = parse_paper_data x.
Proof. unfold strip, strip_by. rewrite parse_rstrip. apply parse_lstrip. Qed.

(** *** Numbered lines are title lines *)

Lemma numbered_shape l :
  is_numbered l = true ->
  exists ds rest, ds <> [] /\ forallb (is_decimal uni_decimal) ds = true
    /\ l = ds ++ 46 :: 32 :: rest.
Proof.
  unfold App.is_numbered. intros H. apply bool_decide_eq_true_1 in H as [m Hm].
  unfold re_match, numbered_re in Hm.
  cbn [p_icase p_re seq foldr lit rmatch plus] in Hm.
  apply rep_sound in Hm as (n & Hlo & Hlen & Hall & Hk).
  unfold lit in Hk. apply rmatch_lits_sound in Hk as (rest & Hdrop & _).
  exists (take n l), rest. repeat split.
  - intros E. apply (f_equal length) in E. rewrite length_take in E.
    simpl in E. lia.
  - exact Hall.
  - rewrite <- (take_drop n l) at 1. rewrite Hdrop. reflexivity.
Qed.

(** *** The scenarios *)

(** C7: on scenario A the parser yields exactly two records, the first
    with title, authors, published, summary and url as given, the second
    with its title and authors and every other field empty. *)
Theorem C7_scenario_A :
  parse_paper_data scenario_A =
  [ {[ "title" := str "Deep Learning Basics";
       "categories" := [];
       "url" := str "https://arxiv.org/abs/1234.5678";
       "summary" := str "An overview.";
       "authors" := str "J. Doe";
       "published" := str "March 3, 2024" ]};
    {[ "title" := str "Transformers Explained";
       "categories" := [];
       "url" := [];
       "summary" := [];
       "authors" := str "A. Smith";
       "published" := [] ]} ].
Proof. vm_compute. reflexivity. Qed.

(** C8: on scenario C the parser yields exactly one record; none of the
    first four title patterns matches the line, the numbered-line pattern
    captures the whole link, unwrapping it gives the title, and the url
    stays empty although the URL pattern would match the line. *)
Theorem C8_scenario_C :
  parse_paper_data scenario_C =
  [ {[ "title" := str "Attention Is All You Need";
       "categories" := [];
       "url" := [];
       "summary" := [];
       "authors" := [];
       "published" := [] ]} ]
  /\ map (fun pat => is_Some_bool (re_match pat scenario_C)) title_patterns
     = [false; false; false; false; true; false]
  /\ (first_title_match title_patterns scenario_C ≫= fun m => group m 1)
     = Some (str "[Attention Is All You Need](https://arxiv.org/abs/1706.03762)")
  /\ extract_markdown_link_text
       (str "[Attention Is All You Need](https://arxiv.org/abs/1706.03762)")
     = str "Attention Is All You Need"
  /\ (re_search (url_re uni_alnum) scenario_C ≫= fun m => group m 1)
     = Some (str "https://arxiv.org/abs/1706.03762").
Proof. vm_compute. repeat split; reflexivity. Qed.

(** *** What every record satisfies *)

Lemma record_ok_empty : record_ok ∅.
Proof. split; left; apply lookup_empty. Qed.

Lemma record_ok_new t : record_ok (new_paper t).
Proof.
  split.
  - right. reflexivity.
  - right. unfold new_paper. rewrite lookup_insert_eq. eexists. split; [reflexivity|].
    destruct t; simpl; discriminate.
Qed.

Lemma record_ok_insert k v r :
  assigned_field k -> record_ok r -> record_ok (<[k := v]> r).
Proof.
  intros Hk [Hc Ht].
  assert (k <> "categories" /\ k <> "title") as [Hkc Hkt].
  { destruct Hk as [-> | [-> | [-> | ->]]]; split; discriminate. }
  split; rewrite lookup_insert_ne by assumption; assumption.
Qed.

Lemma parse_line_ok st l :
  Forall record_ok (records_of st) -> record_ok (snd st) ->
  Forall record_ok (records_of (parse_line st l))
  /\ record_ok (snd (parse_line st l)).
Proof.
  destruct st as [papers cur]. unfold records_of, record_open. simpl.
  intros Hall Hcur.
  assert (Hpapers : Forall record_ok papers).
  { destruct (dict_truthy cur); [|exact Hall].
    apply Forall_app in Hall as [H _]. exact H. }
  destruct (parse_line_cases papers cur l)
    as [[_ [t ->]] | [_ [-> | (k & v & Hk & ->)]]]; simpl.
  - rewrite new_paper_truthy. split; [|apply record_ok_new].
    apply Forall_app. split; [|apply Forall_singleton, record_ok_new].
    destruct (dict_truthy cur); [|exact Hpapers].
    apply Forall_app. split; [exact Hpapers | apply Forall_singleton, Hcur].
  - split; assumption.
  - rewrite dict_truthy_insert.
    pose proof (record_ok_insert k v cur Hk Hcur) as Hins.
    split; [|exact Hins].
    apply Forall_app. split; [exact Hpapers | apply Forall_singleton, Hins].
Qed.

Lemma parse_records_ok x : Forall record_ok (parse_paper_data x).
Proof.
  rewrite parse_records_of.
  assert (H : forall lines st,
             Forall record_ok (records_of st) -> record_ok (snd st) ->
             Forall record_ok (records_of (fold_left parse_line lines st))).
  { induction lines as [|l ls IH]; intros st Hall Hcur; simpl; [exact Hall|].
    destruct (parse_line_ok st l Hall Hcur) as [H1 H2]. apply IH; assumption. }
  apply H; [constructor | apply record_ok_empty].
Qed.

(** The URL column of the table: the url of the record when the key is
    there, the sentinel when it is not. *)
Lemma table_urls papers rows :
  create_papers_dataframe papers = Some rows ->
  map URL rows
  = map (fun p : gmap string (list N) => default (str "N/A") (p !! "url")) papers.
Proof.
  destruct papers as [|p ps]; [discriminate|].
  intros [= <-].
  assert (H : forall l : list (gmap string (list N)),
             map URL (map row_of_paper l)
             = map (fun p => default (str "N/A") (p !! "url")) l).
  { induction l as [|q l IH]; simpl; [reflexivity | f_equal; exact IH]. }
  apply (H (p :: ps)).
Qed.

(** *** A field line before the first title line *)

(** C1 (evaluation at the failing input): the text [Authors: J. Doe] is
    one non-blank line, matches no title pattern and is scanned while no
    record is open, yet the parser returns a record made from it. *)
Theorem C1_unopened_field_line :
  split NL authors_first = [authors_first]
  /\ truthy (strip authors_first) = true
  /\ is_title_line authors_first = false
  /\ record_open (([], ∅) : state) = false
  /\ parse_paper_data authors_first = [ {[ "authors" := str "J. Doe" ]} ].
Proof. vm_compute. repeat split; reflexivity. Qed.

(** C2 (evaluation at the failing inputs): a text without any title line
    yields one record, and a text with one title line yields two. *)
Theorem C2_record_count :
  title_line_count authors_first = 0%nat
  /\ length (parse_paper_data authors_first) = 1%nat
  /\ title_line_count authors_then_title = 1%nat
  /\ length (parse_paper_data authors_then_title) = 2%nat.
Proof. vm_compute. repeat split; reflexivity. Qed.

(** C4 (evaluation at the failing input): the record returned for
    [Authors: J. Doe] has no title at all. *)
Theorem C4_missing_title :
  map (fun r : gmap string (list N) => r !! "title")
    (parse_paper_data authors_first) = [None].
Proof. vm_compute. reflexivity. Qed.

(** C10 (evaluation at the failing input): the record returned for
    [Authors: J. Doe] has no categories field, so the field does not
    equal the empty string; its Categories section is still not
    rendered. *)
Theorem C10_missing_categories :
  map (fun r : gmap string (list N) => r !! "categories")
    (parse_paper_data authors_first) = [None]
  /\ map categories_section (parse_paper_data authors_first) = [[]].
Proof. vm_compute. split; reflexivity. Qed.

(** C3 (evaluation at the failing input): the record parsed from
    [1. Paper A] has an empty url, and its row carries the empty string
    in the URL column, not the sentinel. *)
Theorem C3_empty_url_row :
  map (fun r : gmap string (list N) => r !! "url") (parse_paper_data lone_title)
  = [Some []]
  /\ create_papers_dataframe (parse_paper_data lone_title)
     = Some [Row (str "Paper A") []]
  /\ ([] : list N) <> str "N/A".
Proof. vm_compute. repeat split; [reflexivity.. | discriminate]. Qed.

Section Decimal.

(** No decimal digit is a blank: the two classes are disjoint in the
    Unicode database. *)
Hypothesis uni_decimal_not_space :
  forall c, uni_decimal c = true -> is_space c = false.

Lemma is_decimal_not_space c :
  is_decimal uni_decimal c = true -> is_space c = false.
Proof.
  unfold is_decimal. destruct (N.ltb_spec c 128) as [_|_];
    [|apply uni_decimal_not_space].
  intros H. apply andb_true_iff in H as [H1 H2].
  apply N.leb_le in H1, H2.
  apply not_true_is_false. unfold is_space.
  rewrite !orb_true_iff, !andb_true_iff, !N.leb_le, !N.eqb_eq. lia.
Qed.

(** The bare numbered pattern of the classifier is subsumed by the fifth
    title pattern. *)
Lemma numbered_is_title l :
  NL ∉ l -> is_numbered l = true -> is_title_line l = true.
Proof.
  intros Hnl Hnum.
  destruct (numbered_shape l Hnum) as (ds & rest & Hne & Hds & ->).
  destruct ds as [|d ds]; [congruence|]. clear Hne.
  assert (Hd : is_space d = false).
  { apply is_decimal_not_space. simpl in Hds.
    apply andb_true_iff in Hds as [Hd _]. exact Hd. }
  assert (Hstrip : strip ((d :: ds) ++ 46 :: 32 :: rest)
                   = (d :: ds) ++ 46 :: rstrip_by is_space (32 :: rest)).
  { unfold strip, strip_by. rewrite lstrip_by_fix by exact Hd.
    rewrite rstrip_by_app by reflexivity.
    rewrite (rstrip_by_cons is_space 46). reflexivity. }
  unfold App.is_title_line. rewrite Hstrip. cbn [app truthy andb].
  apply bool_decide_eq_true_2.
  set (t := rstrip_by is_space (32 :: rest)).
  assert (Ht : forallb (fun c => negb (c =? NL)) t = true).
  { apply forallb_forall. intros c Hc. apply negb_true_iff, N.eqb_neq.
    intros ->. apply Hnl. apply list_elem_of_In in Hc.
    apply rstrip_by_subset in Hc.
    rewrite elem_of_app. right. do 2 apply list_elem_of_further.
    apply elem_of_cons in Hc as [Hc | Hc]; [discriminate | exact Hc]. }
  eapply first_title_match_some.
  { unfold App.title_patterns. do 4 right. left. reflexivity. }
  unfold re_match.
  cbn [p_icase p_re seq foldr rmatch plus star star_lazy].
  apply (rep_complete _ _ _ _ _ _ _ _ (length (d :: ds)));
    [simpl; lia | exact I | simpl; rewrite length_app; simpl; lia | |].
  { change (d :: ds ++ 46 :: t) with ((d :: ds) ++ 46 :: t).
    rewrite take_app_length. exact Hds. }
  change (d :: ds ++ 46 :: t) with ((d :: ds) ++ 46 :: t).
  rewrite drop_app_length.
  change (lit ".") with (seq (map (fun c => Atom (Lit c)) [46])).
  rewrite (rmatch_lits [46] _ t).
  apply (rep_complete _ _ _ _ _ _ _ _ 0%nat);
    [lia | exact I | lia | reflexivity |].
  rewrite drop_0.
  apply (rep_complete _ _ _ _ _ _ _ _ (length t));
    [lia | exact I | lia | rewrite firstn_all; exact Ht |].
  rewrite drop_all. eexists. reflexivity.
Qed.

Lemma numbered_count_le lines :
  Forall (fun l => NL ∉ l) lines ->
  (length (filter (fun l => is_numbered l = true) lines)
   <= length (filter (fun l => is_title_line l = true) lines))%nat.
Proof.
  induction 1 as [|l ls Hl _ IH]; [reflexivity|].
  rewrite !filter_cons.
  destruct (decide (is_numbered l = true)) as [Hn|_].
  - rewrite decide_True by (apply numbered_is_title; assumption).
    simpl. lia.
  - destruct (decide (is_title_line l = true)); simpl; lia.
Qed.

(** Two numbered lines make two records. *)
Lemma numbered_records y :
  (length (filter (fun l => is_numbered l = true) (split NL y))
   <= length (parse_paper_data y))%nat.
Proof.
  pose proof (numbered_count_le _ (split_no_sep NL y)).
  pose proof (parse_length_bounds y). unfold App.title_line_count in *. lia.
Qed.

(** C6: [is_paper_list_response] is true exactly when the parser yields
    at least two records or at least two raw lines start with a number,
    a dot and a space; in particular two parsed records suffice. *)
Theorem C6_is_paper_list x :
  (is_paper_list_response x = true
   <-> (2 <= length (parse_paper_data x))%nat
       \/ (2 <= length (filter (fun l => is_numbered l = true) (split NL x)))%nat)
  /\ ((2 <= length (parse_paper_data x))%nat -> is_paper_list_response x = true).
Proof.
  assert (Hyes : (2 <= length (parse_paper_data x))%nat ->
                 is_paper_list_response x = true).
  { intros H. unfold App.is_paper_list_response. cbv zeta.
    apply Nat.leb_le in H. rewrite H. reflexivity. }
  split; [|exact Hyes]. split.
  - unfold App.is_paper_list_response. cbv zeta.
    destruct (Nat.leb_spec 2 (length (parse_paper_data x))) as [Hle|_];
      [left; exact Hle|].
    intros H. apply Nat.leb_le in H. left.
    pose proof (numbered_records (strip x)) as Hn.
    rewrite parse_strip in Hn. lia.
  - intros [H | H]; [exact (Hyes H)|].
    apply Hyes. pose proof (numbered_records x). lia.
Qed.

End Decimal.

End Parser.

Lemma C6_is_paper_list_witness :
  let ascii_only := fun _ : N => false in
  (is_paper_list_response ascii_only ascii_only scenario_D = true
   <-> (2 <= length (parse_paper_data ascii_only ascii_only scenario_D))%nat
       \/ (2 <= length (filter (fun l => is_numbered ascii_only l = true)
                         (split NL scenario_D)))%nat)
  /\ ((2 <= length (parse_paper_data ascii_only ascii_only scenario_D))%nat ->
      is_paper_list_response ascii_only ascii_only scenario_D = true).
Proof.
  intros ascii_only. apply C6_is_paper_list.
  intros c H. discriminate H.
Defined.

End ParserProps.

(** * Further properties of the code *)

(** ** The text cleaner *)

Module CleanerExtras.
Import Py App TextFacts CleanerProps.
Local Open Scope string_scope.
Local Open Scope list_scope.
Local Open Scope N_scope.

Lemma format_line_nil_iff l : format_line l = [] <-> strip l = [].
Proof.
  unfold format_line. cbv zeta.
  destruct (strip l) as [|a s'] eqn:E; [split; reflexivity|].
  cbn [truthy negb].
  split; [|discriminate].
  destruct (_ && _); [discriminate|].
  destruct (_ && _); [discriminate|].
  destruct (startswith GLYPH _); [discriminate | trivial].
Qed.

(** X1: a text that holds no double asterisk after the escape
    replacement is returned as that replacement left it, whatever other
    markers it holds. *)
Theorem X1_clean_without_bold x :
  contains (str "**") (unescape x) = false -> clean x = unescape x.
Proof. intros H. rewrite clean_format. apply format_response_plain, H. Qed.

Lemma X1_clean_without_bold_witness :
  let x := str "Summary: two points" ++ NL :: str "* one" ++ NL :: str "- two" in
  clean x = unescape x.
Proof. intros x. apply X1_clean_without_bold. reflexivity. Defined.

(** X2: formatting neither merges nor splits lines. *)
Theorem X2_format_keeps_line_count t :
  length (split NL (format_structured_response t)) = length (split NL t).
Proof.
  destruct (contains (str "**") t) eqn:E.
  - rewrite split_format_response by exact E. apply length_map.
  - rewrite format_response_plain by exact E. reflexivity.
Qed.

(** X3: formatting a formatted text again changes nothing, as long as no
    line of the text is a lone asterisk. *)
Theorem X3_format_idempotent t :
  (forall l, l ∈ split NL t -> strip l <> str "*") ->
  format_structured_response (format_structured_response t)
  = format_structured_response t.
Proof. apply format_response_idem. Qed.

Lemma X3_format_idempotent_witness :
  let t := str "**Key findings**" ++ NL :: str "* first" ++ NL :: str "plain" in
  format_structured_response (format_structured_response t)
  = format_structured_response t.
Proof.
  intros t. apply X3_format_idempotent.
  intros l Hl. apply list_elem_of_In in Hl. vm_compute in Hl.
  destruct Hl as [<- | [<- | [<- | []]]]; vm_compute; discriminate.
Defined.

(** X4: formatting adds no character other than the hash, the hyphen,
    the space and the line feed. *)
Theorem X4_format_characters t c :
  c ∈ format_structured_response t ->
  c ∈ t \/ c = NL \/ c = 35 \/ c = 32 \/ c = 45.
Proof. apply format_response_chars. Qed.

Lemma X4_format_characters_witness :
  let t := str "**A**" ++ NL :: str "*b" in
  35 ∈ t \/ 35 = NL \/ 35 = 35 \/ 35 = 32 \/ 35 = 45.
Proof.
  intros t. apply (X4_format_characters t 35).
  apply (bool_decide_unpack _). vm_compute. exact I.
Defined.

(** X5: in a text that holds a double asterisk, a line comes out empty
    exactly when it was blank. *)
Theorem X5_blank_lines_kept t i l :
  contains (str "**") t = true ->
  split NL t !! i = Some l ->
  (split NL (format_structured_response t) !! i = Some [] <-> strip l = []).
Proof.
  intros Hbold Hl. rewrite split_format_response by exact Hbold.
  change (map format_line (split NL t)) with (format_line <$> split NL t).
  rewrite list_lookup_fmap, Hl. cbn [fmap option_fmap option_map].
  rewrite <- format_line_nil_iff. split; [intros [= H]; exact H | intros ->; reflexivity].
Qed.

Lemma X5_blank_lines_kept_witness :
  let t := str "**A**" ++ NL :: str "  " ++ NL :: str "* b" in
  split NL (format_structured_response t) !! 1%nat = Some [] <-> strip (str "  ") = [].
Proof. intros t. apply (X5_blank_lines_kept t 1%nat (str "  ")); reflexivity. Defined.

End CleanerExtras.

(** ** What a match can capture *)

Module CaptureFacts.
Import Py Re TextFacts ReFacts.

(** The groups of a match hold characters of the subject only. *)
Lemma rmatch_caps_in L icase r :
  forall pos s cs k m,
    s ⊆ L -> caps_in L cs ->
    (forall pos' s' cs', s' ⊆ L -> caps_in L cs' ->
       k pos' s' cs' = Some m -> caps_in L m) ->
    rmatch icase r pos s cs k = Some m -> caps_in L m.
Proof.
  induction r as [|a|a lo hi greedy|r1 IH1 r2 IH2|r1 IH1 r2 IH2|i r1 IH1| |];
    intros pos s cs k m Hs Hcs Hk H; cbn [rmatch] in H.
  - exact (Hk _ _ _ Hs Hcs H).
  - destruct s as [|c s']; [discriminate|].
    destruct (atom_ok icase a c); [|discriminate].
    refine (Hk _ _ _ _ Hcs H). intros x Hx. apply Hs, list_elem_of_further, Hx.
  - apply rep_sound in H as (n & _ & _ & _ & H).
    refine (Hk _ _ _ _ Hcs H). etransitivity; [apply subseteq_drop | exact Hs].
  - refine (IH1 _ _ _ _ _ Hs Hcs _ H).
    intros pos' s' cs' Hs' Hcs' H'. exact (IH2 _ _ _ _ _ Hs' Hcs' Hk H').
  - destruct (rmatch icase r1 pos s cs k) eqn:E.
    + injection H as ->. exact (IH1 _ _ _ _ _ Hs Hcs Hk E).
    + exact (IH2 _ _ _ _ _ Hs Hcs Hk H).
  - refine (IH1 _ _ _ _ _ Hs Hcs _ H).
    intros pos' s' cs' Hs' Hcs' H'. refine (Hk _ _ _ Hs' _ H').
    apply map_Forall_insert_2; [|exact Hcs'].
    etransitivity; [apply subseteq_take | exact Hs].
  - destruct pos; [exact (Hk _ _ _ Hs Hcs H) | discriminate].
  - destruct s as [|c [|c' s']]; [exact (Hk _ _ _ Hs Hcs H) | | discriminate].
    destruct (c =? NL); [exact (Hk _ _ _ Hs Hcs H) | discriminate].
Qed.

Lemma re_match_caps_in p s m : re_match p s = Some m -> caps_in s m.
Proof.
  unfold re_match. apply rmatch_caps_in; [reflexivity | apply map_Forall_empty|].
  intros pos' s' cs' _ Hcs' [= <-]. exact Hcs'.
Qed.

Lemma search_from_caps_in L p pos s m :
  s ⊆ L -> search_from p pos s = Some m -> caps_in L m.
Proof.
  revert pos. induction s as [|c s IH]; intros pos Hs H; simpl in H.
  - destruct (rmatch _ _ _ _ _ _) eqn:E; [|discriminate].
    injection H as ->. revert E.
    apply rmatch_caps_in; [exact Hs | apply map_Forall_empty|].
    intros pos' s' cs' _ Hcs' [= <-]. exact Hcs'.
  - destruct (rmatch _ _ _ _ _ _) eqn:E.
    + injection H as ->. revert E.
      apply rmatch_caps_in; [exact Hs | apply map_Forall_empty|].
      intros pos' s' cs' _ Hcs' [= <-]. exact Hcs'.
    + apply (IH (S pos)); [|exact H].
      intros x Hx. apply Hs, list_elem_of_further, Hx.
Qed.

Lemma re_search_caps_in p s m : re_search p s = Some m -> caps_in s m.
Proof. apply search_from_caps_in. reflexivity. Qed.

Lemma group_in L (m : gmap nat (list N)) i :
  caps_in L m -> default [] (group m i) ⊆ L.
Proof.
  intros Hm. unfold group. destruct (m !! i) as [v|] eqn:E; simpl.
  - exact (Hm i v E).
  - intros x Hx. apply elem_of_nil in Hx. contradiction.
Qed.

Lemma strip_by_subseteq p s : strip_by p s ⊆ s.
Proof.
  intros c H. unfold strip_by in H.
  apply rstrip_by_subset, lstrip_by_subset in H. exact H.
Qed.

(** Under IGNORECASE a literal still matches itself. *)
Lemma ci_eq_refl c : ci_eq c c = true.
Proof.
  unfold ci_eq, ascii_lower, ascii_upper.
  destruct ((65 <=? c) && (c <=? 90)) eqn:Eup.
  - replace ((97 <=? c) && (c <=? 122)) with false.
    + rewrite (N.eqb_refl c), orb_true_r. reflexivity.
    + symmetry. apply andb_true_iff in Eup as [_ H]. apply N.leb_le in H.
      apply andb_false_iff. left. apply N.leb_gt. lia.
  - rewrite N.eqb_refl. reflexivity.
Qed.

Lemma rmatch_lits_icase lits pos t cs k :
  rmatch true (seq (map (fun c => Atom (Lit c)) lits)) pos (lits ++ t) cs k
  = k (pos + length lits)%nat t cs.
Proof.
  revert pos. induction lits as [|c lits IH]; intros pos.
  - simpl. rewrite Nat.add_0_r. reflexivity.
  - cbn [map seq foldr rmatch app atom_ok]. rewrite ci_eq_refl.
    change (foldr Cat Eps (map (fun c => Atom (Lit c)) lits))
      with (seq (map (fun c => Atom (Lit c)) lits)).
    rewrite IH. f_equal. simpl. lia.
Qed.

End CaptureFacts.

(** ** The record parser *)

Module ParserExtras.
Import Py Re App Scenarios TextFacts ReFacts ParserProps CaptureFacts.
Local Open Scope string_scope.
Local Open Scope list_scope.
Local Open Scope N_scope.

Local Arguments parse_line : simpl never.

Section Parser.

Variable uni_decimal : N -> bool.
Variable uni_alnum : N -> bool.

Local Abbreviation title_patterns := (title_patterns uni_decimal).
Local Abbreviation is_title_line := (is_title_line uni_decimal).
Local Abbreviation title_line_count := (title_line_count uni_decimal).
Local Abbreviation line_field := (line_field uni_decimal uni_alnum).
Local Abbreviation parse_line := (parse_line uni_decimal uni_alnum).
Local Abbreviation parse_paper_data := (parse_paper_data uni_decimal uni_alnum).
Local Abbreviation is_numbered := (is_numbered uni_decimal).
Local Abbreviation is_paper_list_response :=
  (is_paper_list_response uni_decimal uni_alnum).
Local Abbreviation show_assistant_message :=
  (show_assistant_message uni_decimal uni_alnum).

(** X6: the parser returns one record per title line, and at most one
    more. *)
Theorem X6_record_count_bounds x :
  (title_line_count x <= length (parse_paper_data x) <= title_line_count x + 1)%nat.
Proof. apply parse_length_bounds. Qed.

(** X7: when the first line of the text is a title line, there is
    exactly one record per title line. *)
Theorem X7_record_count_exact x l rest :
  split NL x = l :: rest -> is_title_line l = true ->
  length (parse_paper_data x) = title_line_count x.
Proof. apply parse_length_exact. Qed.

(** X8: blanks and blank lines around the text do not change the
    records. *)
Theorem X8_parse_ignores_outer_blanks x :
  parse_paper_data (strip x) = parse_paper_data x.
Proof. apply parse_strip. Qed.

(** X9: in every record the title, when there is one, is not empty, and
    the categories are never a non-empty string. *)
Theorem X9_records_well_formed x : Forall record_ok (parse_paper_data x).
Proof. apply parse_records_ok. Qed.

(** X10: a text of blanks only yields no record. *)
Theorem X10_blank_text_no_records x :
  forallb is_space x = true -> parse_paper_data x = [].
Proof.
  intros H. rewrite parse_records_of.
  rewrite fold_parse_blanks by (apply split_all, H). reflexivity.
Qed.

(** *** One field per line, the last value kept *)

Lemma parse_line_field papers cur l :
  is_title_line l = false -> strip l <> [] ->
  parse_line (papers, cur) l
  = match line_field (strip l) with
    | Some (k, v) => (papers, <[k := v]> cur)
    | None => (papers, cur)
    end.
Proof.
  unfold App.is_title_line, App.parse_line, App.line_field. cbv zeta.
  destruct (strip l) as [|a s']; [congruence|]. intros Ht _.
  cbn [truthy negb andb] in *.
  destruct (first_title_match title_patterns (a :: s')) as [m|].
  { apply bool_decide_eq_false_1 in Ht. exfalso. apply Ht. eexists. reflexivity. }
  unfold is_not_None.
  repeat (destruct (re_search _ _); [reflexivity|]). reflexivity.
Qed.

(** X11: when two lines that are no title lines assign the same field,
    the state after both is the state after the second alone: the last
    value is kept and nothing else remembers the first. *)
Theorem X11_last_value_wins st l1 l2 k v1 v2 :
  is_title_line l1 = false -> is_title_line l2 = false ->
  line_field (strip l1) = Some (k, v1) ->
  line_field (strip l2) = Some (k, v2) ->
  strip l1 <> [] -> strip l2 <> [] ->
  parse_line (parse_line st l1) l2 = parse_line st l2.
Proof.
  intros Ht1 Ht2 Hf1 Hf2 Hn1 Hn2. destruct st as [papers cur].
  rewrite (parse_line_field papers cur l1 Ht1 Hn1), Hf1.
  rewrite !(parse_line_field _ _ l2 Ht2 Hn2), Hf2.
  rewrite insert_insert_eq. reflexivity.
Qed.

(** *** Only the first record can be incomplete *)

Lemma complete_new_paper t : complete_record (new_paper t).
Proof.
  unfold complete_record, field_names, new_paper.
  rewrite !Forall_cons.
  repeat split; try apply Forall_nil_2; simplify_map_eq; eexists; reflexivity.
Qed.

Lemma complete_insert k v (r : gmap string (list N)) :
  complete_record r -> complete_record (<[k := v]> r).
Proof.
  unfold complete_record. intros H. eapply Forall_impl; [exact H|].
  intros k' [w Hw].
  destruct (decide (k = k')) as [->|Hne].
  - rewrite lookup_insert_eq. eexists. reflexivity.
  - rewrite lookup_insert_ne by exact Hne. eexists. exact Hw.
Qed.

Lemma tail_app_singleton {A} (l : list A) (x : A) :
  l <> [] -> tl (l ++ [x]) = tl l ++ [x].
Proof. destruct l; [congruence | reflexivity]. Qed.

Lemma parse_line_tail_complete st l :
  tail_complete st -> tail_complete (parse_line st l).
Proof.
  destruct st as [papers cur]. unfold tail_complete, records_of, record_open.
  cbn [fst snd]. intros [Hclosed Hall].
  destruct (parse_line_cases uni_decimal uni_alnum papers cur l)
    as [[_ [t ->]] | [_ [-> | (k & v & _ & ->)]]]; cbn [fst snd].
  - rewrite new_paper_truthy. split; [discriminate|].
    destruct (dict_truthy cur) eqn:Hcur.
    + rewrite tail_app_singleton by (destruct papers; discriminate).
      apply Forall_app. split; [exact Hall | apply Forall_singleton, complete_new_paper].
    + rewrite (Hclosed eq_refl). apply Forall_nil_2.
  - split; assumption.
  - rewrite dict_truthy_insert. split; [discriminate|].
    destruct (dict_truthy cur) eqn:Hcur.
    + destruct papers as [|p ps]; [apply Forall_nil_2|].
      cbn [app tl] in *. rewrite Forall_app, Forall_singleton in Hall.
      destruct Hall as [Hps Hc].
      apply Forall_app. split; [exact Hps|].
      apply Forall_singleton, complete_insert, Hc.
    + rewrite (Hclosed eq_refl). apply Forall_nil_2.
Qed.

(** X12: every record after the first has all six keys; only the first
    record of the output can lack a title or another field. *)
Theorem X12_only_first_record_incomplete x :
  Forall complete_record (tl (parse_paper_data x)).
Proof.
  rewrite parse_records_of.
  assert (H : forall lines st, tail_complete st ->
             tail_complete (fold_left parse_line lines st)).
  { induction lines as [|l ls IH]; intros st Hst; [exact Hst|].
    apply IH, parse_line_tail_complete, Hst. }
  apply (H (split NL x) ([], ∅)).
  split; [reflexivity | apply Forall_nil_2].
Qed.

(** *** Values stay on one line *)

Lemma first_title_match_caps_in pats line m :
  first_title_match pats line = Some m -> caps_in line m.
Proof.
  induction pats as [|p pats IH]; simpl; [discriminate|].
  destruct (re_match p line) eqn:E; [|exact IH].
  intros [= <-]. exact (re_match_caps_in _ _ _ E).
Qed.

Lemma extract_link_subseteq s : extract_markdown_link_text s ⊆ s.
Proof.
  unfold extract_markdown_link_text.
  destruct (re_match link_re s) as [m|] eqn:E.
  - etransitivity; [apply strip_by_subseteq|].
    apply group_in, (re_match_caps_in _ _ _ E).
  - apply strip_by_subseteq.
Qed.

Lemma field_value_subseteq g : field_value g ⊆ g.
Proof.
  unfold field_value, strip. etransitivity; [apply strip_by_subseteq|].
  intros c H. unfold lstrip_chr in H.
  apply lstrip_by_subset, lstrip_by_subset in H.
  apply strip_by_subseteq in H. exact H.
Qed.

Lemma single_line_new_paper t :
  NL ∉ t -> single_line_record (new_paper t).
Proof.
  intros Ht. unfold single_line_record, new_paper.
  repeat (apply map_Forall_insert_2; [try apply not_elem_of_nil|]).
  - destruct (truthy t); [exact Ht|].
    apply (bool_decide_unpack _). vm_compute. exact I.
  - apply map_Forall_empty.
Qed.

Lemma parse_line_single_line st l :
  NL ∉ l ->
  Forall single_line_record (fst st) -> single_line_record (snd st) ->
  Forall single_line_record (fst (parse_line st l))
  /\ single_line_record (snd (parse_line st l)).
Proof.
  destruct st as [papers cur]. cbn [fst snd]. intros Hl Hps Hcur.
  assert (Hin : forall v : list N, v ⊆ strip l -> NL ∉ v).
  { intros v Hv H. apply Hl, strip_subset, Hv, H. }
  unfold App.parse_line. cbv zeta.
  destruct (negb (truthy (strip l))); [split; assumption|].
  destruct (first_title_match title_patterns (strip l)) as [m|] eqn:Et.
  { cbn [fst snd]. split.
    - destruct (dict_truthy cur); [|exact Hps].
      apply Forall_app. split; [exact Hps | apply Forall_singleton, Hcur].
    - apply single_line_new_paper, Hin.
      etransitivity; [apply extract_link_subseteq|].
      pose proof (first_title_match_caps_in _ _ _ Et) as Hm.
      unfold group. destruct (m !! 1%nat) as [g|] eqn:Eg;
        [|intros c Hc; apply elem_of_nil in Hc; contradiction].
      destruct (truthy g);
        [|intros c Hc; apply elem_of_nil in Hc; contradiction].
      etransitivity; [apply strip_by_subseteq | exact (Hm _ _ Eg)]. }
  unfold is_not_None.
  destruct (re_search authors_re (strip l)) as [m|] eqn:E1.
  { cbn [fst snd]. split; [exact Hps|].
    apply map_Forall_insert_2; [|exact Hcur]. apply Hin.
    etransitivity; [apply field_value_subseteq|].
    apply group_in, (re_search_caps_in _ _ _ E1). }
  destruct (re_search (published_re uni_decimal) (strip l)) as [m|] eqn:E2.
  { cbn [fst snd]. split; [exact Hps|].
    apply map_Forall_insert_2; [|exact Hcur]. apply Hin.
    etransitivity; [apply field_value_subseteq|].
    apply group_in, (re_search_caps_in _ _ _ E2). }
  destruct (re_search summary_re (strip l)) as [m|] eqn:E3.
  { cbn [fst snd]. split; [exact Hps|].
    apply map_Forall_insert_2; [|exact Hcur]. apply Hin.
    etransitivity; [apply field_value_subseteq|].
    apply group_in, (re_search_caps_in _ _ _ E3). }
  destruct (re_search (url_re uni_alnum) (strip l)) as [m|] eqn:E4.
  { cbn [fst snd]. split; [exact Hps|].
    apply map_Forall_insert_2; [|exact Hcur]. apply Hin.
    apply group_in, (re_search_caps_in _ _ _ E4). }
  split; assumption.
Qed.

Lemma parse_single_line x :
  Forall single_line_record (parse_paper_data x).
Proof.
  rewrite parse_records_of.
  assert (H : forall lines st,
             Forall (fun l => NL ∉ l) lines ->
             Forall single_line_record (fst st) -> single_line_record (snd st) ->
             Forall single_line_record (records_of (fold_left parse_line lines st))).
  { induction lines as [|l ls IH]; intros st Hls Hps Hcur; cbn [fold_left].
    - unfold records_of. destruct (record_open st); [|exact Hps].
      apply Forall_app. split; [exact Hps | apply Forall_singleton, Hcur].
    - rewrite Forall_cons in Hls. destruct Hls as [Hl Hls].
      destruct (parse_line_single_line st l Hl Hps Hcur) as [H1 H2].
      apply IH; assumption. }
  apply H; [apply split_no_sep | apply Forall_nil_2 | apply map_Forall_empty].
Qed.

(** X17: no value of any record holds a line feed: each value comes
    from a single line of the text. *)
Theorem X17_values_single_line x :
  Forall single_line_record (parse_paper_data x).
Proof. apply parse_single_line. Qed.

(** *** Title lines *)

(** X13: a line without a line feed whose trimmed form starts with one
    or more decimal digits and a dot is a title line, whatever follows
    the dot. *)
Theorem X13_numbered_prefix_is_title l ds t :
  NL ∉ l -> strip l = ds ++ 46 :: t -> ds <> [] ->
  forallb (is_decimal uni_decimal) ds = true ->
  is_title_line l = true.
Proof.
  intros Hnl Hstrip Hne Hds.
  assert (Ht : forallb (fun c => negb (c =? NL)) t = true).
  { apply forallb_forall. intros c Hc. apply negb_true_iff, N.eqb_neq.
    intros ->. apply Hnl, strip_subset. rewrite Hstrip.
    rewrite elem_of_app. right. apply list_elem_of_further, list_elem_of_In, Hc. }
  unfold App.is_title_line. rewrite Hstrip.
  destruct ds as [|d ds]; [congruence|]. cbn [app truthy andb].
  apply bool_decide_eq_true_2.
  eapply first_title_match_some.
  { unfold App.title_patterns. do 4 right. left. reflexivity. }
  unfold re_match.
  cbn [p_icase p_re seq foldr rmatch plus star star_lazy].
  change (d :: ds ++ 46 :: t) with ((d :: ds) ++ 46 :: t).
  apply (rep_complete _ _ _ _ _ _ _ _ (length (d :: ds)));
    [simpl; lia | exact I | rewrite length_app; simpl; lia | |].
  { rewrite take_app_length. exact Hds. }
  rewrite drop_app_length.
  change (lit ".") with (seq (map (fun c => Atom (Lit c)) [46])).
  rewrite (rmatch_lits [46] _ t).
  apply (rep_complete _ _ _ _ _ _ _ _ 0%nat);
    [lia | exact I | lia | reflexivity |].
  rewrite drop_0.
  apply (rep_complete _ _ _ _ _ _ _ _ (length t));
    [lia | exact I | lia | rewrite firstn_all; exact Ht |].
  rewrite drop_all. eexists. reflexivity.
Qed.

(** X28: a line without a line feed whose trimmed form is the word
    Title followed by at least one more character is a title line, even
    when that character is only the colon of the label. *)
Theorem X28_title_label_is_title l rest :
  NL ∉ l -> strip l = str "Title" ++ rest -> rest <> [] ->
  is_title_line l = true.
Proof.
  intros Hnl Hstrip Hne.
  assert (Hrest : forallb (fun c => negb (c =? NL)) rest = true).
  { apply forallb_forall. intros c Hc. apply negb_true_iff, N.eqb_neq.
    intros ->. apply Hnl, strip_subset. rewrite Hstrip.
    rewrite elem_of_app. right. apply list_elem_of_In, Hc. }
  unfold App.is_title_line. rewrite Hstrip.
  change (truthy (str "Title" ++ rest)) with true. cbn [andb].
  apply bool_decide_eq_true_2.
  eapply first_title_match_some.
  { unfold App.title_patterns. do 5 right. left. reflexivity. }
  unfold re_match.
  cbn [p_icase p_re seq foldr rmatch plus star opt].
  change (lit "Title") with (seq (map (fun c => Atom (Lit c)) (str "Title"))).
  rewrite rmatch_lits_icase.
  apply (rep_complete _ _ _ _ _ _ _ _ 0%nat);
    [lia | simpl; lia | lia | reflexivity |].
  rewrite drop_0.
  apply (rep_complete _ _ _ _ _ _ _ _ 0%nat);
    [lia | exact I | lia | reflexivity |].
  rewrite drop_0.
  apply (rep_complete _ _ _ _ _ _ _ _ (length rest));
    [destruct rest; [congruence | simpl; lia] | exact I | lia
    | rewrite firstn_all; exact Hrest |].
  eexists. reflexivity.
Qed.

(** *** The classifier *)

(** X14: the classifier gives the same answer for a text and for the
    text without its surrounding blanks. *)
Theorem X14_classifier_ignores_outer_blanks x :
  is_paper_list_response (strip x) = is_paper_list_response x.
Proof.
  unfold App.is_paper_list_response. cbv zeta.
  rewrite parse_strip, strip_idem. reflexivity.
Qed.

Section Decimal.

Hypothesis uni_decimal_not_space :
  forall c, uni_decimal c = true -> is_space c = false.

Lemma classifier_counts_records x :
  is_paper_list_response x = (2 <=? length (parse_paper_data x))%nat.
Proof.
  unfold App.is_paper_list_response. cbv zeta.
  destruct (Nat.leb_spec 2 (length (parse_paper_data x))) as [_|Hlt];
    [reflexivity|].
  apply Nat.leb_gt.
  pose proof (numbered_records uni_decimal uni_alnum uni_decimal_not_space
                (strip x)) as Hn.
  rewrite parse_strip in Hn. lia.
Qed.

(** X15: the numbered-line scan never changes the answer of the
    classifier, which is true exactly when the parser returns at least
    two records. *)
Theorem X15_classifier_counts_records x :
  is_paper_list_response x = (2 <=? length (parse_paper_data x))%nat.
Proof. apply classifier_counts_records. Qed.

(** X16: for a message that the classifier accepts, the page shows the
    structured report followed by a table with one row per record and at
    least two rows; the raw message is not shown. *)
Theorem X16_accepted_message_display content :
  is_paper_list_response content = true ->
  exists df,
    show_assistant_message content
    = [Markdown (format_structured_paper_list (parse_paper_data content));
       Dataframe df]
    /\ length df = length (parse_paper_data content)
    /\ (2 <= length df)%nat.
Proof.
  intros Hyes. unfold App.show_assistant_message. rewrite Hyes. cbv zeta.
  rewrite classifier_counts_records in Hyes. apply Nat.leb_le in Hyes.
  destruct (parse_paper_data content) as [|p ps] eqn:E; [simpl in Hyes; lia|].
  exists (map row_of_paper (p :: ps)). split; [reflexivity|].
  rewrite length_map. split; [reflexivity | exact Hyes].
Qed.

End Decimal.

End Parser.

(** The witnesses take the database of a runtime that knows ASCII only. *)

Lemma X11_last_value_wins_witness :
  let D := fun _ : N => false in
  let st : state := ([], new_paper (str "A paper")) in
  App.parse_line D D (App.parse_line D D st (str "Authors: J. Doe"))
    (str "Authors: A. Smith")
  = App.parse_line D D st (str "Authors: A. Smith").
Proof.
  intros D st.
  apply (X11_last_value_wins D D st _ _ "authors" (str "J. Doe") (str "A. Smith"));
    vm_compute; solve [reflexivity | discriminate].
Defined.

Lemma X13_numbered_prefix_is_title_witness :
  App.is_title_line (fun _ => false) (str "  12.Notes on scaling ") = true.
Proof.
  apply (X13_numbered_prefix_is_title (fun _ => false) _ (str "12")
           (str "Notes on scaling")).
  - apply (bool_decide_unpack _). vm_compute. exact I.
  - vm_compute. reflexivity.
  - discriminate.
  - reflexivity.
Defined.

Lemma X28_title_label_is_title_witness :
  App.is_title_line (fun _ => false) (str "Title:") = true.
Proof.
  apply (X28_title_label_is_title (fun _ => false) _ (str ":")).
  - apply (bool_decide_unpack _). vm_compute. exact I.
  - reflexivity.
  - discriminate.
Defined.

Lemma X15_classifier_counts_records_witness :
  let D := fun _ : N => false in
  App.is_paper_list_response D D scenario_D
  = (2 <=? length (App.parse_paper_data D D scenario_D))%nat.
Proof.
  intros D. apply X15_classifier_counts_records. intros c H. discriminate H.
Defined.

Lemma X16_accepted_message_display_witness :
  let D := fun _ : N => false in
  exists df,
    App.show_assistant_message D D scenario_A
    = [Markdown (format_structured_paper_list (App.parse_paper_data D D scenario_A));
       Dataframe df]
    /\ length df = length (App.parse_paper_data D D scenario_A)
    /\ (2 <= length df)%nat.
Proof.
  intros D. apply X16_accepted_message_display.
  - intros c H. discriminate H.
  - vm_compute. reflexivity.
Defined.

Lemma X7_record_count_exact_witness :
  length (App.parse_paper_data (fun _ => false) (fun _ => false) scenario_A)
  = App.title_line_count (fun _ => false) scenario_A.
Proof.
  apply (X7_record_count_exact (fun _ => false) (fun _ => false) scenario_A
           (str "1. **Title**: Deep Learning Basics")
           (tl (split NL scenario_A))); reflexivity.
Defined.

Lemma X10_blank_text_no_records_witness :
  App.parse_paper_data (fun _ => false) (fun _ => false)
    (str "  " ++ NL :: NL :: str " ") = [].
Proof. apply X10_blank_text_no_records. reflexivity. Defined.

End ParserExtras.

(** ** The presenters *)

Module PresenterExtras.
Import Py Re App Scenarios TextFacts CaptureFacts ParserProps ParserExtras.
Local Open Scope string_scope.
Local Open Scope list_scope.
Local Open Scope N_scope.

Local Arguments report_paper : simpl never.

(** *** The structured report *)

Lemma report_output papers acc :
  fold_left (fun output p => output ++ report_paper p) papers acc
  = acc ++ concat (map report_paper papers).
Proof.
  revert acc. induction papers as [|p ps IH]; intros acc;
    cbn [fold_left map concat].
  - symmetry. apply app_nil_r.
  - rewrite IH, app_assoc. reflexivity.
Qed.

Lemma format_report_lines p ps :
  format_structured_paper_list (p :: ps)
  = join [NL] (concat (map report_paper (p :: ps))).
Proof.
  unfold format_structured_paper_list. cbv zeta. rewrite report_output.
  reflexivity.
Qed.

Lemma report_value_subseteq v : report_value v ⊆ v.
Proof.
  unfold report_value, strip, strip_chr.
  etransitivity; [apply strip_by_subseteq|].
  etransitivity; apply strip_by_subseteq.
Qed.

Lemma report_field_no_NL label v :
  NL ∉ str label -> NL ∉ v ->
  Forall (fun l => NL ∉ l) (report_field label v).
Proof.
  intros Hlabel Hv. unfold report_field. destruct (truthy v); [|constructor].
  repeat constructor; [|apply not_elem_of_nil].
  rewrite elem_of_app. intros [H | H]; [exact (Hlabel H) | exact (Hv H)].
Qed.

Lemma lookup_no_NL (p : gmap string (list N)) k d :
  single_line_record p -> NL ∉ d -> NL ∉ default d (p !! k).
Proof.
  intros Hp Hd. destruct (p !! k) as [v|] eqn:E; simpl; [exact (Hp k v E) | exact Hd].
Qed.

Ltac no_NL_literal := apply (bool_decide_unpack _); vm_compute; exact I.

Lemma report_paper_no_NL p :
  single_line_record p -> Forall (fun l => NL ∉ l) (report_paper p).
Proof.
  intros Hp. unfold report_paper. cbv zeta.
  assert (Hval : forall k d, NL ∉ d -> NL ∉ report_value (default d (p !! k))).
  { intros k d Hd H. apply report_value_subseteq in H.
    exact (lookup_no_NL p k d Hp Hd H). }
  repeat (apply Forall_app; split).
  - repeat constructor; [|apply not_elem_of_nil].
    rewrite elem_of_app. intros [H | H]; [revert H; no_NL_literal|].
    revert H. apply Hval. no_NL_literal.
  - apply report_field_no_NL; [no_NL_literal | apply Hval, not_elem_of_nil].
  - apply report_field_no_NL; [no_NL_literal | apply Hval, not_elem_of_nil].
  - apply report_field_no_NL; [no_NL_literal | apply Hval, not_elem_of_nil].
  - apply report_field_no_NL; [no_NL_literal|].
    intros H. apply strip_subset in H.
    exact (lookup_no_NL p "url" [] Hp (not_elem_of_nil _) H).
  - repeat constructor. no_NL_literal.
Qed.

Local Abbreviation count_dividers lines :=
  (length (filter (fun l : list N => l = str "---") lines)).

Lemma report_field_dividers label v :
  startswith (str "*") (str label) = true ->
  count_dividers (report_field label v) = 0%nat.
Proof.
  intros Hlabel. unfold report_field. destruct (truthy v); [|reflexivity].
  rewrite !filter_cons, filter_nil.
  rewrite decide_False, decide_False; [reflexivity | discriminate |].
  intros E. destruct (str label) as [|a r]; [discriminate|].
  simpl in E. injection E as -> _. discriminate Hlabel.
Qed.

Lemma report_paper_dividers p : count_dividers (report_paper p) = 1%nat.
Proof.
  unfold report_paper. cbv zeta.
  rewrite !filter_app, !length_app.
  rewrite !report_field_dividers by reflexivity.
  rewrite !filter_cons, filter_nil.
  rewrite decide_False by discriminate.
  rewrite decide_False by discriminate.
  rewrite decide_True by reflexivity. reflexivity.
Qed.

Lemma report_dividers papers :
  Forall single_line_record papers ->
  dividers (format_structured_paper_list papers) = length papers.
Proof.
  intros Hall. destruct papers as [|p ps]; [reflexivity|].
  unfold dividers. rewrite format_report_lines.
  rewrite split_join.
  - generalize (p :: ps) Hall. clear. intros l _.
    induction l as [|q l IH]; [reflexivity|].
    cbn [map concat length]. rewrite filter_app, length_app, IH.
    rewrite report_paper_dividers. reflexivity.
  - simpl. unfold report_paper. discriminate.
  - generalize (p :: ps) Hall. clear. intros l Hl.
    induction Hl as [|q l Hq _ IH]; [constructor|].
    cbn [map concat]. apply Forall_app. split; [|exact IH].
    apply report_paper_no_NL, Hq.
Qed.

(** X18: the categories of a record change neither the report nor the
    table. *)
Theorem X18_categories_not_rendered papers v :
  let papers' := map (fun p : gmap string (list N) => <["categories" := v]> p) papers in
  format_structured_paper_list papers' = format_structured_paper_list papers
  /\ create_papers_dataframe papers' = create_papers_dataframe papers.
Proof.
  intros papers'.
  assert (Hreport : map report_paper papers' = map report_paper papers).
  { unfold papers'. rewrite map_map. apply map_ext. intros p.
    unfold report_paper. rewrite !lookup_insert_ne by discriminate. reflexivity. }
  assert (Hrows : map row_of_paper papers' = map row_of_paper papers).
  { unfold papers'. rewrite map_map. apply map_ext. intros p.
    unfold row_of_paper. rewrite !lookup_insert_ne by discriminate. reflexivity. }
  destruct papers as [|p ps]; [split; reflexivity|].
  split.
  - change papers' with (<["categories" := v]> p
        :: map (fun p : gmap string (list N) => <["categories" := v]> p) ps) in *.
    rewrite !format_report_lines, Hreport. reflexivity.
  - unfold create_papers_dataframe.
    change papers' with (<["categories" := v]> p
        :: map (fun p : gmap string (list N) => <["categories" := v]> p) ps) in *.
    rewrite Hrows. reflexivity.
Qed.

(** *** The summary display *)

Lemma slice_to_take {A} (m : Z) (l : list A) :
  (0 <= m)%Z -> slice_to m l = take (Z.to_nat m) l.
Proof.
  intros Hm. unfold slice_to.
  destruct (Z.ltb_spec m 0) as [Hlt|_]; [lia | reflexivity].
Qed.

Lemma display_nonempty papers max_papers :
  papers <> [] ->
  format_paper_display papers max_papers
  = str "## " ++ [287; 376; 8220; 8222] ++ str " Found "
      ++ str_of_Z (Z.min (Z.of_nat (length papers)) max_papers)
      ++ str " Recent Papers" ++ [NL; NL]
      ++ concat (imap display_paper (slice_to max_papers papers)).
Proof. destruct papers; [congruence | reflexivity]. Qed.

(** X19: with a positive limit, the summary display of a list is the
    display of its first [max_papers] records: the records beyond the
    limit are never read. *)
Theorem X19_display_reads_first_records papers max_papers :
  (1 <= max_papers)%Z ->
  format_paper_display papers max_papers
  = format_paper_display (take (Z.to_nat max_papers) papers) max_papers.
Proof.
  intros Hm. destruct papers as [|p ps].
  { rewrite take_nil. reflexivity. }
  assert (Hne : take (Z.to_nat max_papers) (p :: ps) <> []).
  { destruct (Z.to_nat max_papers) eqn:E; [lia | discriminate]. }
  rewrite (display_nonempty (p :: ps)) by discriminate.
  rewrite (display_nonempty _ _ Hne).
  rewrite !slice_to_take by lia.
  rewrite take_take, Nat.min_id, length_take.
  replace (Z.min (Z.of_nat (Nat.min (Z.to_nat max_papers) (length (p :: ps))))
             max_papers)
    with (Z.min (Z.of_nat (length (p :: ps))) max_papers) by lia.
  reflexivity.
Qed.

Lemma X19_display_reads_first_records_witness :
  let D := fun _ : N => false in
  format_paper_display (parse_paper_data D D scenario_D) 2
  = format_paper_display (take 2 (parse_paper_data D D scenario_D)) 2.
Proof.
  intros D. apply (X19_display_reads_first_records _ 2). lia.
Defined.

(** *** The table *)

Lemma index_link_close a b :
  contains [93; 40] a = false ->
  index [93; 40] (a ++ 93 :: 40 :: b) = Some (length a).
Proof.
  induction a as [|c a IH]; intros Ha.
  - cbn [app index startswith]. rewrite !N.eqb_refl. reflexivity.
  - cbn [contains] in Ha. apply orb_false_iff in Ha as [Hs Ha].
    cbn [app index].
    replace (startswith [93; 40] (c :: a ++ 93 :: 40 :: b)) with false.
    + rewrite (IH Ha). reflexivity.
    + symmetry. cbn [startswith] in *. destruct a as [|d a'].
      * cbn [app]. destruct (93 =? c); reflexivity.
      * cbn [app]. exact Hs.
Qed.

Lemma contains_app_mid p a b : contains p (a ++ p ++ b) = true.
Proof.
  assert (Hp : forall s, startswith p (p ++ s) = true).
  { induction p as [|c p IH]; intros s; [reflexivity|].
    cbn [app startswith]. rewrite N.eqb_refl. apply IH. }
  induction a as [|c a IH]; cbn [app].
  - destruct (p ++ b) eqn:E; cbn [contains]; rewrite <- E, Hp; reflexivity.
  - cbn [contains]. rewrite IH. apply orb_true_r.
Qed.

(** X20: the table unwraps what it is given as a markdown link: for a
    title made of a bracketed text without a closing bracket followed by
    an opening parenthesis, then a parenthesised target, the Title
    column is the text, unless the text is the word title itself. *)
Theorem X20_table_unwraps_link (p : gmap string (list N)) t u :
  p !! "title" = Some (str "[" ++ t ++ str "](" ++ u ++ str ")") ->
  contains (str "](") t = false ->
  lower_equals (str "title") (strip t) = false ->
  Title (row_of_paper p) = t.
Proof.
  intros Hp Ht Hword. unfold row_of_paper. rewrite Hp. cbv zeta.
  cbn [default from_option id]. unfold id.
  set (title := str "[" ++ t ++ str "](" ++ u ++ str ")").
  assert (Hstart : startswith (str "[") title = true) by reflexivity.
  assert (Hhas : contains (str "](") title = true).
  { change (contains (str "](") title)
      with (contains (str "](") ((91 :: t) ++ str "](" ++ (u ++ [41]))).
    apply contains_app_mid. }
  assert (Hend : endswith (str ")") title = true).
  { unfold endswith, title. rewrite !rev_app_distr. cbn [rev app str].
    reflexivity. }
  assert (Hidx : index (str "](") title = Some (S (length t))).
  { change (index (str "](") title)
      with (index [93; 40] ((91 :: t) ++ 93 :: 40 :: (u ++ [41]))).
    rewrite index_link_close; [reflexivity|].
    cbn [contains]. change [93; 40] with (str "](").
    rewrite Ht, orb_false_r. destruct t; reflexivity. }
  rewrite Hstart, Hhas, Hend, Hidx. cbn [andb].
  assert (Hcut : drop 1 (take (S (length t)) title) = t).
  { unfold title. change (str "[" ++ t ++ str "](" ++ u ++ str ")")
      with (91 :: t ++ str "](" ++ u ++ str ")").
    cbn [take drop]. rewrite drop_0, take_app_length. reflexivity. }
  rewrite Hcut, Hword. reflexivity.
Qed.

Lemma X20_table_unwraps_link_witness :
  Title (row_of_paper
           {[ "title" := str "[Attention Is All You Need](https://arxiv.org/abs/1706.03762)" ]})
  = str "Attention Is All You Need".
Proof.
  apply (X20_table_unwraps_link _ (str "Attention Is All You Need")
           (str "https://arxiv.org/abs/1706.03762")); reflexivity.
Defined.

Section Parser.

Variable uni_decimal : N -> bool.
Variable uni_alnum : N -> bool.

Local Abbreviation parse_paper_data := (parse_paper_data uni_decimal uni_alnum).

(** X21: the report of what the parser returns has exactly one divider
    line per record. *)
Theorem X21_one_divider_per_record x :
  dividers (format_structured_paper_list (parse_paper_data x))
  = length (parse_paper_data x).
Proof. apply report_dividers, parse_single_line. Qed.

(** X22: the summary display never renders a Categories section for a
    record that the parser returns. *)
Theorem X22_categories_never_displayed x :
  Forall (fun r => categories_section r = []) (parse_paper_data x).
Proof.
  eapply Forall_impl; [apply parse_records_ok|].
  intros r [Hc _]. unfold categories_section, get_truthy.
  destruct Hc as [-> | ->]; reflexivity.
Qed.

End Parser.
End PresenterExtras.

(** ** Reading the text out of the response *)

Module ExtractExtras.
Import Py Re App Scenarios.
Local Open Scope string_scope.
Local Open Scope list_scope.
Local Open Scope N_scope.

Lemma truthy_nonempty (t : list N) : t <> [] -> truthy t = true.
Proof. destruct t; [congruence | reflexivity]. Qed.

(** X23: from a response of the expected shape, a dict whose first
    output's first output holds [results], [message] and a non-empty
    [text], the function returns that text, cleaned. *)
Theorem X23_extract_text d o os r rs res msg t :
  dict_lookup (str "outputs") d = Some (JList (JDict o :: os)) ->
  dict_lookup (str "outputs") o = Some (JList (JDict r :: rs)) ->
  dict_lookup (str "results") r = Some (JDict res) ->
  dict_lookup (str "message") res = Some (JDict msg) ->
  dict_lookup (str "text") msg = Some (JStr t) ->
  t <> [] ->
  extract_structured_content (JDict d) = Text (clean t).
Proof.
  intros Hd Ho Hr Hres Hmsg Ht.
  unfold extract_structured_content, extract_body.
  cbn [py_in py_getitem bind]. rewrite Hd.
  cbn [is_Some_bool bind json_truthy py_first py_get]. rewrite Ho.
  cbn [bind json_truthy py_first py_get]. rewrite Hr.
  cbn [bind py_get]. rewrite Hres. cbn [bind py_get]. rewrite Hmsg.
  cbn [bind json_truthy]. rewrite (truthy_nonempty t Ht).
  cbn [negb bind json_truthy]. rewrite (truthy_nonempty t Ht). reflexivity.
Qed.

Lemma X23_extract_text_witness :
  extract_structured_content (response_with [(str "text", JStr (str "* one"))])
  = Text (clean (str "* one")).
Proof.
  unfold response_with.
  eapply X23_extract_text; try reflexivity. discriminate.
Defined.

(** X24: when the message has no [text], or an empty one, the text is
    taken from [data] instead. *)
Theorem X24_extract_data_text d o os r rs res msg data t :
  dict_lookup (str "outputs") d = Some (JList (JDict o :: os)) ->
  dict_lookup (str "outputs") o = Some (JList (JDict r :: rs)) ->
  dict_lookup (str "results") r = Some (JDict res) ->
  dict_lookup (str "message") res = Some (JDict msg) ->
  json_truthy (default JNull (dict_lookup (str "text") msg)) = false ->
  dict_lookup (str "data") msg = Some (JDict data) ->
  dict_lookup (str "text") data = Some (JStr t) ->
  t <> [] ->
  extract_structured_content (JDict d) = Text (clean t).
Proof.
  intros Hd Ho Hr Hres Hmsg Hdata Htext Ht.
  unfold extract_structured_content, extract_body.
  cbn [py_in py_getitem bind]. rewrite Hd.
  cbn [is_Some_bool bind json_truthy py_first py_get]. rewrite Ho.
  cbn [bind json_truthy py_first py_get]. rewrite Hr.
  cbn [bind py_get]. rewrite Hres. cbn [bind py_get].
  assert (Hfalsy : forall v, json_truthy v = false ->
            (let! has_data := (if negb (json_truthy v)
                               then py_in (str "data") (JDict msg)
                               else Ok false) in
             let! text_response :=
               (if has_data then
                  let! data := py_getitem (JDict msg) (str "data") in
                  py_get data (str "text") (JStr [])
                else Ok v) in
             if json_truthy text_response then
               match text_response with
               | JStr t => Ok (Some (clean t))
               | _ => Raise AttributeError
               end
             else Ok None) = Ok (Some (clean t))).
  { intros v Hv. rewrite Hv. cbn [negb py_in bind py_getitem]. rewrite Hdata.
    cbn [is_Some_bool bind py_get]. rewrite Htext. cbn [bind json_truthy].
    rewrite (truthy_nonempty t Ht). reflexivity. }
  destruct (dict_lookup (str "text") msg) as [v|]; cbn [default from_option id] in Hmsg;
    cbn [bind]; rewrite (Hfalsy _ Hmsg); reflexivity.
Qed.

Lemma X24_extract_data_text_witness :
  extract_structured_content
    (response_with [(str "text", JStr []);
                    (str "data", JDict [(str "text", JStr (str "Summary: ok"))])])
  = Text (clean (str "Summary: ok")).
Proof.
  unfold response_with.
  eapply X24_extract_data_text; try reflexivity. discriminate.
Defined.

(** X25: a dict without [outputs], or with an empty or otherwise falsy
    one, is handed back as [str(response_data)]. *)
Theorem X25_extract_no_outputs d :
  json_truthy (default JNull (dict_lookup (str "outputs") d)) = false ->
  extract_structured_content (JDict d) = Fallback.
Proof.
  intros H. unfold extract_structured_content, extract_body.
  cbn [py_in py_getitem bind].
  destruct (dict_lookup (str "outputs") d) as [v|];
    cbn [default from_option id is_Some_bool bind] in *;
    [rewrite H|]; reflexivity.
Qed.

Lemma X25_extract_no_outputs_witness :
  extract_structured_content
    (JDict [(str "detail", JStr (str "Flow not found")); (str "outputs", JList [])])
  = Fallback.
Proof. apply X25_extract_no_outputs. reflexivity. Defined.

(** X26: a response that is not a dict never raises: the function
    returns [str(response_data)] or the diagnostic of a [TypeError]. *)
Theorem X26_extract_non_dict x :
  (forall d, x <> JDict d) ->
  extract_structured_content x = Fallback
  \/ extract_structured_content x = ParseError TypeError.
Proof.
  intros Hx. unfold extract_structured_content, extract_body.
  destruct x as [| b | n | f | s | l | d]; cbn [py_in bind];
    try (right; reflexivity).
  - destruct (contains (str "outputs") s); cbn [py_getitem bind];
      [right | left]; reflexivity.
  - destruct (existsb _ l); cbn [py_getitem bind]; [right | left]; reflexivity.
  - exfalso. exact (Hx d eq_refl).
Qed.

Lemma X26_extract_non_dict_witness :
  let x := JList [JStr (str "outputs")] in
  extract_structured_content x = Fallback
  \/ extract_structured_content x = ParseError TypeError.
Proof. intros x. apply X26_extract_non_dict. intros d H. discriminate H. Defined.

(** X27: when the first element of a non-empty [outputs] list is not a
    dict, the call of its [get] method raises an [AttributeError], which
    the function does not catch. *)
Theorem X27_extract_attribute_error d v vs :
  dict_lookup (str "outputs") d = Some (JList (v :: vs)) ->
  (forall o, v <> JDict o) ->
  extract_structured_content (JDict d) = Uncaught AttributeError.
Proof.
  intros Hd Hv. unfold extract_structured_content, extract_body.
  cbn [py_in py_getitem bind]. rewrite Hd.
  cbn [is_Some_bool bind json_truthy py_first].
  destruct v as [| b | n | f | s | l | o]; try reflexivity.
  exfalso. exact (Hv o eq_refl).
Qed.

Lemma X27_extract_attribute_error_witness :
  extract_structured_content
    (JDict [(str "outputs", JList [JStr (str "pending")])])
  = Uncaught AttributeError.
Proof.
  eapply X27_extract_attribute_error; [reflexivity|].
  intros o H. discriminate H.
Defined.

End ExtractExtras.
